(** * DIGIPIN service: the grid code and its HTTP adapter

    The repository is an Express application.  [src/app.js] installs the
    middleware chain and mounts the router of [routes/digipin.routes.js]; the
    router validates each request and hands it to the two functions of
    [digipin.js], [getDigiPin] and [getLatLngFromDigiPin].

    Definitions come first:
    - [Core]: the encoder and the decoder of the grid code;
    - [Js]: the JavaScript values and built-ins the adapter relies on
      ([typeof], truthiness, [parseFloat], [trim], [includes]);
    - [Routes] and [App]: the four route handlers and the middleware chain;
    - [Service] and [Samples]: the core behind the router, sample requests.
    [CoreFacts] and [AdapterFacts] hold the properties. *)

From Stdlib Require Import ZArith QArith Qround List String Ascii Bool Lia Lqa.
Import ListNotations.

Set Implicit Arguments.

(* ===================================================================== *)
(** * The core: encoder and decoder                                        *)
(* ===================================================================== *)

Module Core.

Open Scope Q_scope.

(** Modelled from the spec: the BoundingBox of the data model (digipin.js is
    missing), the region still consistent with the location at the current
    depth of subdivision.  Coordinates are exact rationals. *)
Record BoundingBox : Type := mkBox {
  minLat : Q;
  maxLat : Q;
  minLon : Q;
  maxLon : Q
}.

(** Modelled from the spec: the constants shared by the encoder and the
    decoder, which the missing digipin.js declares: the root box, the 4x4
    symbol table, the number of levels and the separator character.  The
    specification leaves their values open, so they are a parameter of the
    development. *)
Record Constants : Type := mkConstants {
  root : BoundingBox;
  SymbolGrid : list (list ascii);
  L : nat;
  separator : ascii
}.

(** Modelled from the spec: the invariants the data model asks of the
    constants (digipin.js is missing): a box with a positive extent on each
    axis, a 4x4 table of sixteen distinct symbols, a separator that is not
    one of them. *)
Record WellFormed (K : Constants) : Prop := mkWellFormed {
  wf_lat : minLat (root K) < maxLat (root K);
  wf_lon : minLon (root K) < maxLon (root K);
  wf_rows : List.length (SymbolGrid K) = 4%nat;
  wf_cols : Forall (fun r => List.length r = 4%nat) (SymbolGrid K);
  wf_distinct : NoDup (List.concat (SymbolGrid K));
  wf_separator : ~ In (separator K) (List.concat (SymbolGrid K))
}.

Inductive Axis : Type := Latitude | Longitude.
Inductive Bound : Type := Lower | Upper.

(** Modelled from the spec: the failure kinds of the core, with the axis and
    the bound a coordinate out of range is reported against (digipin.js is
    missing). *)
Inductive Failure : Type :=
| CoordinateOutOfRange (axis : Axis) (bound : Bound)
| InvalidCodeLength
| InvalidCodeSymbol.

(** Modelled from the spec: what a call of the core produces (digipin.js is
    missing): a value, one of the named failures, or [OutOfTable] when the
    symbol table is indexed outside its 4x4 cells. *)
Inductive Outcome (A : Type) : Type :=
| Ok (a : A)
| Fails (f : Failure)
| OutOfTable.
Arguments Fails {A} f.
Arguments OutOfTable {A}.

(** Modelled from the spec: what the decoder returns (digipin.js is missing),
    the cell of the last level and its midpoint. *)
Record Decoded : Type := mkDecoded {
  box : BoundingBox;
  latitude : Q;
  longitude : Q
}.

(** Modelled from the spec: the clamp of an index into [0,3] (digipin.js is
    missing). *)
Definition clamp (x : Z) : Z := Z.max 0 (Z.min x 3).

(** Modelled from the spec: the sides of the sixteen equal cells of a box
    (digipin.js is missing). *)
Definition latDiv (b : BoundingBox) : Q := (maxLat b - minLat b) / 4.
Definition lonDiv (b : BoundingBox) : Q := (maxLon b - minLon b) / 4.

(** Modelled from the spec: steps 1 to 3 of the encoder's level (digipin.js is
    missing).  The box is cut in 4x4 equal cells; the row decreases as the
    latitude increases, the column increases with the longitude; both are
    clamped into [0,3]. *)
Definition cellOf (b : BoundingBox) (lat lon : Q) : Z * Z :=
  let row := (3 - Qfloor ((lat - minLat b) / latDiv b))%Z in
  let col := Qfloor ((lon - minLon b) / lonDiv b) in
  (clamp row, clamp col).

(** Modelled from the spec: step 5 of the encoder's level, which the decoder
    applies unchanged (digipin.js is missing).  The box becomes the cell at
    [(row, col)]: row 0 is the northernmost quarter, column 0 the westernmost.
    The bounds are kept as reduced fractions ([Qred] does not change their
    value). *)
Definition narrow (b : BoundingBox) (row col : Z) : BoundingBox :=
  {| minLat := Qred (minLat b + latDiv b * inject_Z (3 - row));
     maxLat := Qred (minLat b + latDiv b * inject_Z (4 - row));
     minLon := Qred (minLon b + lonDiv b * inject_Z col);
     maxLon := Qred (minLon b + lonDiv b * inject_Z (col + 1)) |}.

(** Modelled from the spec: the representative coordinate of a box
    (digipin.js is missing). *)
Definition midpoint (b : BoundingBox) : Q * Q :=
  ((minLat b + maxLat b) / 2, (minLon b + maxLon b) / 2).

Definition valid (b : BoundingBox) : Prop :=
  minLat b < maxLat b /\ minLon b < maxLon b.

Definition contains (b : BoundingBox) (lat lon : Q) : Prop :=
  (minLat b <= lat <= maxLat b) /\ (minLon b <= lon <= maxLon b).

(** Modelled from the spec: the levels after which a separator is written
    (digipin.js is missing). *)
Definition separatorLevel (level : nat) : bool :=
  Nat.eqb level 3 || Nat.eqb level 6.

Definition pow4 (n : nat) : Q := inject_Z (4 ^ Z.of_nat n).

(** The position of the first [c] in [l]. *)
Fixpoint indexOf (c : ascii) (l : list ascii) : option nat :=
  match l with
  | [] => None
  | x :: l' => if Ascii.eqb x c then Some O
               else option_map S (indexOf c l')
  end.

Section WithConstants.

Variable K : Constants.

(** Modelled from the spec: reading the table at [(row, col)] (digipin.js is
    missing); nothing is found outside the table. *)
Definition lookup (row col : Z) : option ascii :=
  if (row <? 0)%Z || (col <? 0)%Z then None
  else match nth_error (SymbolGrid K) (Z.to_nat row) with
       | Some r => nth_error r (Z.to_nat col)
       | None => None
       end.

(** Modelled from the spec: the inverse of the table (digipin.js is missing),
    the first cell, row by row, that holds [c]. *)
Fixpoint locateFrom (c : ascii) (row : Z) (rows : list (list ascii))
  : option (Z * Z) :=
  match rows with
  | [] => None
  | r :: rows' =>
      match indexOf c r with
      | Some col => Some (row, Z.of_nat col)
      | None => locateFrom c (row + 1) rows'
      end
  end.

Definition locate (c : ascii) : option (Z * Z) :=
  locateFrom c 0 (SymbolGrid K).

Definition inAlphabet (c : ascii) : Prop := In c (List.concat (SymbolGrid K)).

(** Modelled from the spec: the loop of the encoder over the levels
    [level, level+1, ...], [n] of them (digipin.js is missing).  Each level
    emits the symbol of its cell, then a separator after the 3rd and the 6th
    level, and narrows the box. *)
Fixpoint encodeFrom (n level : nat) (b : BoundingBox) (lat lon : Q)
  : option (list ascii) :=
  match n with
  | O => Some []
  | S n' =>
      let (row, col) := cellOf b lat lon in
      match lookup row col with
      | None => None
      | Some ch =>
          match encodeFrom n' (S level) (narrow b row col) lat lon with
          | None => None
          | Some rest =>
              Some (ch :: (if separatorLevel level then [separator K] else [])
                         ++ rest)
          end
      end
  end.

(** Modelled from the spec: the precondition of the encoder, latitude first
    (digipin.js is missing). *)
Definition checkRange (lat lon : Q) : option Failure :=
  if Qlt_le_dec lat (minLat (root K))
  then Some (CoordinateOutOfRange Latitude Lower)
  else if Qlt_le_dec (maxLat (root K)) lat
  then Some (CoordinateOutOfRange Latitude Upper)
  else if Qlt_le_dec lon (minLon (root K))
  then Some (CoordinateOutOfRange Longitude Lower)
  else if Qlt_le_dec (maxLon (root K)) lon
  then Some (CoordinateOutOfRange Longitude Upper)
  else None.

(** Modelled from the spec: the encoder, [getDigiPin] of the missing
    digipin.js. *)
Definition encode (lat lon : Q) : Outcome string :=
  match checkRange lat lon with
  | Some f => Fails f
  | None =>
      match encodeFrom (L K) 1 (root K) lat lon with
      | Some code => Ok (string_of_list_ascii code)
      | None => OutOfTable
      end
  end.

(** Modelled from the spec: the removal of the separators before the decoder
    validates its input (digipin.js is missing). *)
Definition strip (code : list ascii) : list ascii :=
  filter (fun c => negb (Ascii.eqb c (separator K))) code.

(** Modelled from the spec: the loop of the decoder (digipin.js is missing).
    Each symbol is located in the table and narrows the box by the encoder's
    rule; [None] when a symbol is not in the table. *)
Fixpoint decodeFrom (symbols : list ascii) (b : BoundingBox)
  : option BoundingBox :=
  match symbols with
  | [] => Some b
  | c :: rest =>
      match locate c with
      | None => None
      | Some (row, col) => decodeFrom rest (narrow b row col)
      end
  end.

(** Modelled from the spec: the decoder, [getLatLngFromDigiPin] of the
    missing digipin.js.  Separators are dropped, the length is checked, then
    the symbols are read in order.  The specification does not say which of
    the two checks comes first; a string with both defects is refused here
    for its length. *)
Definition decode (code : string) : Outcome Decoded :=
  let pin := strip (list_ascii_of_string code) in
  if negb (Nat.eqb (List.length pin) (L K)) then Fails InvalidCodeLength
  else match decodeFrom pin (root K) with
       | None => Fails InvalidCodeSymbol
       | Some b =>
           Ok {| box := b;
                 latitude := fst (midpoint b);
                 longitude := snd (midpoint b) |}
       end.

(** The extent of a cell of the last level on each axis: the root extent
    divided by [4^L]. *)
Definition cellHeight : Q := (maxLat (root K) - minLat (root K)) / pow4 (L K).
Definition cellWidth : Q := (maxLon (root K) - minLon (root K)) / pow4 (L K).

(** The points the code is defined on: those of the root box, edges
    included. *)
Definition inRoot (lat lon : Q) : Prop := contains (root K) lat lon.

(** The bound of the root box the point is beyond, on the given axis. *)
Definition violates (axis : Axis) (bound : Bound) (lat lon : Q) : Prop :=
  match axis, bound with
  | Latitude, Lower => lat < minLat (root K)
  | Latitude, Upper => maxLat (root K) < lat
  | Longitude, Lower => lon < minLon (root K)
  | Longitude, Upper => maxLon (root K) < lon
  end.

(** The box the encoder has reached after [n] levels started from [b]. *)
Fixpoint boxAfter (n : nat) (b : BoundingBox) (lat lon : Q) : BoundingBox :=
  match n with
  | O => b
  | S n' =>
      boxAfter n' (narrow b (fst (cellOf b lat lon)) (snd (cellOf b lat lon)))
               lat lon
  end.

(** The symbols [symbols], the first of them of level [level], written with a
    separator after the symbols of level 3 and 6. *)
Fixpoint withSeparators (level : nat) (symbols : list ascii) : list ascii :=
  match symbols with
  | [] => []
  | c :: rest =>
      c :: (if separatorLevel level then [separator K] else [])
        ++ withSeparators (S level) rest
  end.

End WithConstants.

(** An instance of the constants, on which the model is run: the grid
    published for DIGIPIN (the box 2.5..38.5 N, 63.5..99.5 E, ten levels, a
    hyphen as separator).  The values digipin.js declares are not in the
    sources; the properties below hold for every well-formed instance. *)
Definition digipin : Constants :=
  {| root := {| minLat := 2.5; maxLat := 38.5; minLon := 63.5; maxLon := 99.5 |};
     SymbolGrid := [ ["F";"C";"9";"8"]; ["J";"3";"2";"7"];
                     ["K";"4";"5";"6"]; ["L";"M";"P";"T"] ]%char;
     L := 10;
     separator := "-"%char |}.

End Core.


(* ===================================================================== *)
(** * JavaScript values and the built-ins the adapter uses                 *)
(* ===================================================================== *)

Module Js.

Open Scope string_scope.

(** A JavaScript number.  A finite number carries its exact value: the
    rounding of the IEEE double is not modelled, the adapter only asks
    whether a number is [NaN] or finite. *)
Inductive JsNumber : Type :=
| NaN
| PosInfinity
| NegInfinity
| Finite (q : Q).

(** The values a parsed JSON body or a parsed query string can hold. *)
#[warnings="-register-all"] Inductive JsValue : Type :=
| VUndefined
| VNull
| VBool (b : bool)
| VNumber (n : JsNumber)
| VString (s : string)
| VArray (items : list JsValue)
| VObject (fields : list (string * JsValue)).

(** An object as a list of properties, such as [req.body] and [req.query]. *)
Definition JsObject : Type := list (string * JsValue).

(** [o[name]], [undefined] when the object has no such property. *)
Fixpoint getProp (o : JsObject) (name : string) : JsValue :=
  match o with
  | [] => VUndefined
  | (k, v) :: o' => if String.eqb k name then v else getProp o' name
  end.

(** The [Error] objects the adapter inspects. *)
Record JsError : Type := mkError {
  message : string;
  isSyntaxError : bool;
  status : option nat;
  hasBody : bool
}.

Definition typeof (v : JsValue) : string :=
  match v with
  | VUndefined => "undefined"
  | VNull => "object"
  | VBool _ => "boolean"
  | VNumber _ => "number"
  | VString _ => "string"
  | VArray _ => "object"
  | VObject _ => "object"
  end.

(** [!!v]. *)
Definition truthy (v : JsValue) : bool :=
  match v with
  | VUndefined | VNull => false
  | VBool b => b
  | VNumber NaN => false
  | VNumber (Finite q) => negb (Qeq_bool q 0)
  | VNumber _ => true
  | VString s => negb (String.eqb s "")
  | VArray _ | VObject _ => true
  end.

Definition isNaN (n : JsNumber) : bool :=
  match n with NaN => true | _ => false end.

Definition isFinite (n : JsNumber) : bool :=
  match n with Finite _ => true | _ => false end.

(** White space and line terminators among the code units below 256 (strings
    are sequences of such code units): TAB, LF, VT, FF, CR, SP and NBSP. *)
Definition isWhiteSpace (c : ascii) : bool :=
  let n := nat_of_ascii c in
  (Nat.leb 9 n && Nat.leb n 13) || Nat.eqb n 32 || Nat.eqb n 160.

(** The characters of [l] from the first one that is not white space. *)
Fixpoint skipWhiteSpace (l : list ascii) : list ascii :=
  match l with
  | [] => []
  | c :: l' => if isWhiteSpace c then skipWhiteSpace l' else l
  end.

Definition trimStart (s : string) : string :=
  string_of_list_ascii (skipWhiteSpace (list_ascii_of_string s)).

Definition trimEnd (s : string) : string :=
  string_of_list_ascii
    (rev (skipWhiteSpace (rev (list_ascii_of_string s)))).

(** [s.trim()]. *)
Definition trim (s : string) : string := trimEnd (trimStart s).

(** A string of white space only, the empty string included. *)
Definition isBlank (s : string) : bool :=
  forallb isWhiteSpace (list_ascii_of_string s).

(** [s.includes(sub)]. *)
Fixpoint includes (s sub : string) : bool :=
  String.prefix sub s ||
  match s with
  | EmptyString => false
  | String _ s' => includes s' sub
  end.

(** ** [parseFloat] *)

Definition isDigit (c : ascii) : bool :=
  let n := nat_of_ascii c in Nat.leb 48 n && Nat.leb n 57.

Definition digitValue (c : ascii) : Z := Z.of_nat (nat_of_ascii c) - 48.

(** The longest run of decimal digits at the head of [s], and what follows. *)
Fixpoint spanDigits (s : string) : list ascii * string :=
  match s with
  | EmptyString => ([], EmptyString)
  | String c s' =>
      if isDigit c
      then let (ds, rest) := spanDigits s' in (c :: ds, rest)
      else ([], s)
  end.

Definition digitsValue (ds : list ascii) : Z :=
  fold_left (fun acc c => 10 * acc + digitValue c)%Z ds 0%Z.

(** The exponent part at the head of [s], 0 when there is none: [e] or [E],
    an optional sign, at least one digit. *)
Definition exponentPart (s : string) : Z :=
  match s with
  | String c s1 =>
      if (Ascii.eqb c "e" || Ascii.eqb c "E")%char then
        match s1 with
        | String "+" s2 =>
            match spanDigits s2 with
            | ([], _) => 0
            | (ds, _) => digitsValue ds
            end
        | String "-" s2 =>
            match spanDigits s2 with
            | ([], _) => 0
            | (ds, _) => - digitsValue ds
            end
        | _ =>
            match spanDigits s1 with
            | ([], _) => 0
            | (ds, _) => digitsValue ds
            end
        end%Z
      else 0%Z
  | EmptyString => 0%Z
  end.

(** The value of the longest prefix of [s] that is an unsigned decimal
    literal ([12], [12.], [12.5], [.5], each with an optional exponent);
    [None] when no prefix is one. *)
Definition decimalPrefix (s : string) : option Q :=
  let (intDigits, afterInt) := spanDigits s in
  let (fracDigits, afterFrac) :=
    match afterInt with
    | String "." r => spanDigits r
    | _ => ([], afterInt)
    end in
  match intDigits, fracDigits with
  | [], [] => None
  | _, _ =>
      let mantissa := digitsValue (intDigits ++ fracDigits) in
      let exponent :=
        (exponentPart afterFrac - Z.of_nat (List.length fracDigits))%Z in
      Some (Qred (inject_Z mantissa * Qpower 10 exponent))
  end.

(** Magnitudes from [2^1024 - 2^970] on round to an infinity. *)
Definition overflowBound : Q := inject_Z (2 ^ 1024 - 2 ^ 970).

Definition toNumber (negative : bool) (magnitude : Q) : JsNumber :=
  if Qle_bool overflowBound magnitude
  then if negative then NegInfinity else PosInfinity
  else Finite (if negative then Qopp magnitude else magnitude).

Definition unsignedLiteral (negative : bool) (s : string) : JsNumber :=
  if String.prefix "Infinity" s
  then if negative then NegInfinity else PosInfinity
  else match decimalPrefix s with
       | Some q => toNumber negative q
       | None => NaN
       end.

(** [parseFloat(s)] on a string: leading white space is skipped, the longest
    prefix that is a decimal literal is read, what follows is ignored; [NaN]
    when there is no such prefix. *)
Definition parseFloat (s : string) : JsNumber :=
  match trimStart s with
  | String "+" r => unsignedLiteral false r
  | String "-" r => unsignedLiteral true r
  | t => unsignedLiteral false t
  end.

(** [parseFloat(v)] on any value, which is first turned into a string.  A
    number comes back unchanged; [undefined], [null], a boolean and an object
    give strings that start with no number; an array gives its items joined
    by commas, of which only the first can be read (an item [undefined] or
    [null] is joined as the empty string). *)
Fixpoint parseFloatValue (v : JsValue) : JsNumber :=
  match v with
  | VString s => parseFloat s
  | VNumber n => n
  | VArray (item :: _) => parseFloatValue item
  | _ => NaN
  end.

End Js.

(* ===================================================================== *)
(** * The router: routes/digipin.routes.js                                 *)
(* ===================================================================== *)

Module Routes.
Import Js.

Open Scope string_scope.

(** What the handlers read of an Express request.  [body] is the object left
    by [express.json()] and [query] the parsed query string; header names are
    in lower case, as Node delivers them. *)
Record Request : Type := mkRequest {
  method : string;
  path : string;
  headers : list (string * string);
  body : JsObject;
  query : JsObject
}.

(** [res.status(statusCode).json(json)]. *)
Record Response : Type := mkResponse {
  statusCode : nat;
  json : JsValue
}.

(** The [code] property of the JSON sent, [undefined] when there is none. *)
Definition codeOf (r : Response) : JsValue :=
  match json r with
  | VObject o => getProp o "code"
  | _ => VUndefined
  end.

(** The [error] property of the JSON sent. *)
Definition errorOf (r : Response) : JsValue :=
  match json r with
  | VObject o => getProp o "error"
  | _ => VUndefined
  end.

(** How a call of the core ends: it returns, or it throws an [Error]. *)
Inductive CoreResult (A : Type) : Type :=
| Returned (a : A)
| Threw (error : JsError).
Arguments Threw {A} error.

(** What a handler does with a request: it answers at once, or it calls one
    function of the core and answers from what the call gives (the [try] and
    the [catch] branch). *)
Inductive Handler : Type :=
| Respond (r : Response)
| CallGetDigiPin (lat lon : JsNumber) (reply : CoreResult string -> Response)
| CallGetLatLngFromDigiPin (digipin : string)
                           (reply : CoreResult JsValue -> Response).

(** Whether the handler calls the core at all. *)
Definition invokesCore (h : Handler) : bool :=
  match h with
  | Respond _ => false
  | _ => true
  end.

(** The two functions required from [../digipin]. *)
Record CoreApi : Type := mkCoreApi {
  getDigiPin : JsNumber -> JsNumber -> CoreResult string;
  getLatLngFromDigiPin : string -> CoreResult JsValue
}.

(** Running a handler against an implementation of the core. *)
Definition run (core : CoreApi) (h : Handler) : Response :=
  match h with
  | Respond r => r
  | CallGetDigiPin lat lon reply => reply (getDigiPin core lat lon)
  | CallGetLatLngFromDigiPin digipin reply =>
      reply (getLatLngFromDigiPin core digipin)
  end.

(** [isValidNumber]: a string is judged by its [parseFloat]. *)
Definition isValidNumber (value : JsValue) : bool :=
  let num :=
    if String.eqb (typeof value) "string"
    then VNumber (parseFloatValue value)
    else value in
  match num with
  | VNumber n => negb (isNaN n) && isFinite n
  | _ => false
  end.

(** [isValidString]: a string with something else than white space. *)
Definition isValidString (value : JsValue) : bool :=
  match value with
  | VString s => Nat.ltb 0 (String.length (trim s))
  | _ => false
  end.

(** [v === undefined || v === null]. *)
Definition isNullish (v : JsValue) : bool :=
  match v with
  | VUndefined | VNull => true
  | _ => false
  end.

(** [res.status(400).json({ error, code })]. *)
Definition badRequest (error code : string) : Response :=
  {| statusCode := 400;
     json := VObject [("error", VString error); ("code", VString code)] |}.

(** The answer to a [digipin] that is not a string. *)
Definition invalidDigipinType (digipin : JsValue) : Response :=
  {| statusCode := 400;
     json := VObject
       [("error", VString ("Invalid digipin type: expected string, received "
                           ++ typeof digipin));
        ("code", VString "INVALID_DIGIPIN_TYPE");
        ("receivedType", VString (typeof digipin))] |}.

Definition missingDigipinBody : Response :=
  badRequest "Missing required field: digipin" "MISSING_DIGIPIN".

Definition missingDigipinQuery : Response :=
  badRequest "Missing required query parameter: digipin" "MISSING_DIGIPIN".

Definition invalidDigipin : Response :=
  badRequest "Invalid digipin: must be a non-empty string" "INVALID_DIGIPIN".

(** The [try]/[catch] around [getDigiPin]. *)
Definition encodeReply (result : CoreResult string) : Response :=
  match result with
  | Returned code =>
      {| statusCode := 200; json := VObject [("digipin", VString code)] |}
  | Threw error => badRequest (message error) "ENCODING_FAILED"
  end.

(** The [try]/[catch] around [getLatLngFromDigiPin]. *)
Definition decodeReply (result : CoreResult JsValue) : Response :=
  match result with
  | Returned coords => {| statusCode := 200; json := coords |}
  | Threw error => badRequest (message error) "DECODING_FAILED"
  end.

(** [router.post('/encode', ...)]. *)
Definition postEncode (req : Request) : Handler :=
  let latitude := getProp (body req) "latitude" in
  let longitude := getProp (body req) "longitude" in
  if isNullish latitude then
    Respond (badRequest "Missing required field: latitude" "MISSING_LATITUDE")
  else if isNullish longitude then
    Respond (badRequest "Missing required field: longitude" "MISSING_LONGITUDE")
  else if negb (isValidNumber latitude) then
    Respond (badRequest "Invalid latitude: must be a valid number"
                        "INVALID_LATITUDE")
  else if negb (isValidNumber longitude) then
    Respond (badRequest "Invalid longitude: must be a valid number"
                        "INVALID_LONGITUDE")
  else
    let latNum := parseFloatValue latitude in
    let lonNum := parseFloatValue longitude in
    CallGetDigiPin latNum lonNum encodeReply.

(** [router.post('/decode', ...)]; the values that are not [VString] are
    those with [typeof digipin !== 'string']. *)
Definition postDecode (req : Request) : Handler :=
  let digipin := getProp (body req) "digipin" in
  if isNullish digipin then Respond missingDigipinBody
  else
    match digipin with
    | VString s =>
        if negb (isValidString digipin) then
          Respond invalidDigipin
        else CallGetLatLngFromDigiPin s decodeReply
    | _ => Respond (invalidDigipinType digipin)
    end.

(** [router.get('/encode', ...)]. *)
Definition getEncode (req : Request) : Handler :=
  let latitude := getProp (query req) "latitude" in
  let longitude := getProp (query req) "longitude" in
  if negb (truthy latitude) || negb (truthy longitude) then
    Respond (badRequest
               "Missing required query parameters: latitude and longitude"
               "MISSING_PARAMETERS")
  else if negb (isValidNumber latitude) then
    Respond (badRequest "Invalid latitude: must be a valid number"
                        "INVALID_LATITUDE")
  else if negb (isValidNumber longitude) then
    Respond (badRequest "Invalid longitude: must be a valid number"
                        "INVALID_LONGITUDE")
  else
    let latNum := parseFloatValue latitude in
    let lonNum := parseFloatValue longitude in
    CallGetDigiPin latNum lonNum encodeReply.

(** [router.get('/decode', ...)]. *)
Definition getDecode (req : Request) : Handler :=
  let digipin := getProp (query req) "digipin" in
  if negb (truthy digipin) then Respond missingDigipinQuery
  else
    match digipin with
    | VString s =>
        if negb (isValidString digipin) then
          Respond invalidDigipin
        else CallGetLatLngFromDigiPin s decodeReply
    | _ => Respond (invalidDigipinType digipin)
    end.

(** The handler the router picks for a method and a path below its mount
    point, if any. *)
Definition route (req : Request) : option Handler :=
  if String.eqb (method req) "POST" && String.eqb (path req) "/encode"
  then Some (postEncode req)
  else if String.eqb (method req) "POST" && String.eqb (path req) "/decode"
  then Some (postDecode req)
  else if String.eqb (method req) "GET" && String.eqb (path req) "/encode"
  then Some (getEncode req)
  else if String.eqb (method req) "GET" && String.eqb (path req) "/decode"
  then Some (getDecode req)
  else None.

(** A refusal by the router itself: status 400 and one of the given codes. *)
Definition refusedWith (codes : list string) (r : Response) : Prop :=
  statusCode r = 400%nat /\ exists c, codeOf r = VString c /\ In c codes.

(** The codes the encode routes give to a request they refuse themselves. *)
Definition encodeGateCodes : list string :=
  ["MISSING_LATITUDE"; "MISSING_LONGITUDE"; "MISSING_PARAMETERS";
   "INVALID_LATITUDE"; "INVALID_LONGITUDE"].

End Routes.

(* ===================================================================== *)
(** * The application: src/app.js                                          *)
(* ===================================================================== *)

Module App.
Import Js Routes.

Open Scope string_scope.

(** How a middleware ends: it sends the response, it calls [next()], or it
    calls [next(err)]. *)
Inductive MiddlewareResult : Type :=
| Ended (r : Response)
| Next (req : Request)
| NextError (err : JsError) (req : Request).

Definition Middleware : Type := Request -> MiddlewareResult.
Definition ErrorMiddleware : Type := JsError -> Request -> MiddlewareResult.

(** [req.headers[name]]. *)
Fixpoint getHeader (hs : list (string * string)) (name : string)
  : option string :=
  match hs with
  | [] => None
  | (k, v) :: hs' => if String.eqb k name then Some v else getHeader hs' name
  end.

(** The 415 answer; [receivedContentType] is [contentType || 'none']. *)
Definition unsupportedMediaType (contentType : option string) : Response :=
  {| statusCode := 415;
     json := VObject
       [("error",
         VString "Unsupported Media Type: Content-Type must be application/json");
        ("code", VString "INVALID_CONTENT_TYPE");
        ("receivedContentType",
         VString match contentType with
                 | Some ct => if String.eqb ct "" then "none" else ct
                 | None => "none"
                 end);
        ("expectedContentType", VString "application/json")] |}.

(** [validateJsonContentType]. *)
Definition validateJsonContentType : Middleware := fun req =>
  if String.eqb (method req) "POST" || String.eqb (method req) "PUT"
     || String.eqb (method req) "PATCH"
  then
    let contentType := getHeader (headers req) "content-type" in
    match contentType with
    | None => Ended (unsupportedMediaType contentType)
    | Some ct =>
        if negb (truthy (VString ct)) || negb (includes ct "application/json")
        then Ended (unsupportedMediaType contentType)
        else Next req
    end
  else Next req.

Definition optNatEqb (a b : option nat) : bool :=
  match a, b with
  | Some x, Some y => Nat.eqb x y
  | None, None => true
  | _, _ => false
  end.

(** The error handler for the bodies [express.json()] cannot parse. *)
Definition jsonErrorHandler : ErrorMiddleware := fun err req =>
  if isSyntaxError err && optNatEqb (status err) (Some 400%nat) && hasBody err
  then Ended
         {| statusCode := 400;
            json := VObject
              [("error", VString ("Invalid JSON payload: " ++ message err));
               ("code", VString "INVALID_JSON_SYNTAX");
               ("details",
                VString "Ensure your JSON is properly formatted with correct syntax")] |}
  else NextError err req.

(** One [app.use(...)]: a middleware or an error handler, with the path it
    is mounted on ("/" when none is given). *)
Inductive Layer : Type :=
| Use (mountPath name : string) (m : Middleware)
| UseError (name : string) (m : ErrorMiddleware).

(** How the chain ends: a response was sent, or nothing answered (Express
    then answers 404), or an error was left unhandled (Express answers with
    its default error page). *)
Inductive Outcome : Type :=
| Sent (r : Response)
| NotFound
| Unhandled (err : JsError).

Definition setPath (req : Request) (p : string) : Request :=
  {| method := method req; path := p; headers := headers req;
     body := body req; query := query req |}.

(** What is left of the path [p] below [prefix], when [p] is [prefix] or lies
    under it. *)
Fixpoint belowPrefix (prefix p : string) : option string :=
  match prefix, p with
  | EmptyString, EmptyString => Some "/"
  | EmptyString, String "/" _ => Some p
  | EmptyString, _ => None
  | String a prefix', String b p' =>
      if Ascii.eqb a b then belowPrefix prefix' p' else None
  | String _ _, EmptyString => None
  end.

(** The path a layer mounted on [mountPath] sees; everything is below "/". *)
Definition below (mountPath p : string) : option string :=
  if String.eqb mountPath "/" then Some p else belowPrefix mountPath p.

(** Express walks the layers in the order of the [app.use] calls and skips
    those mounted elsewhere.  Without a pending error it skips the error
    handlers, with one it skips the others.  A mounted middleware sees the
    path without the mount path.  The result comes with the names of the
    layers that ran, in order. *)
Fixpoint runLayers (layers : list Layer) (pending : option JsError)
         (req : Request) : list string * Outcome :=
  match layers with
  | [] =>
      ([], match pending with Some err => Unhandled err | None => NotFound end)
  | Use mountPath name m :: rest =>
      match pending, below mountPath (path req) with
      | Some _, _ | None, None => runLayers rest pending req
      | None, Some inner =>
          match m (setPath req inner) with
          | Ended r => ([name], Sent r)
          | Next req' =>
              let (ran, out) := runLayers rest None (setPath req' (path req)) in
              (name :: ran, out)
          | NextError err req' =>
              let (ran, out) :=
                runLayers rest (Some err) (setPath req' (path req)) in
              (name :: ran, out)
          end
      end
  | UseError name m :: rest =>
      match pending with
      | None => runLayers rest pending req
      | Some err =>
          match m err req with
          | Ended r => ([name], Sent r)
          | Next req' =>
              let (ran, out) := runLayers rest None req' in (name :: ran, out)
          | NextError err' req' =>
              let (ran, out) := runLayers rest (Some err') req' in
              (name :: ran, out)
          end
      end
  end.

Section Application.

(** The middleware of the packages [cors], [express] and [morgan], the
    documentation pages, and the core the router requires. *)
Variables cors jsonParser morgan swagger : Middleware.
Variable core : CoreApi.

(** The router as a middleware: the handler of the route answers. *)
Definition digipinRoutes : Middleware := fun req =>
  match route req with
  | Some h => Ended (run core h)
  | None => Next req
  end.

(** The chain of [app.use] calls, in the order of the file. *)
Definition app : list Layer :=
  [ Use "/" "validateJsonContentType" validateJsonContentType;
    Use "/" "cors" cors;
    Use "/" "express.json" jsonParser;
    Use "/" "morgan" morgan;
    UseError "jsonErrorHandler" jsonErrorHandler;
    Use "/api-docs" "swagger" swagger;
    Use "/api/digipin" "digipinRoutes" digipinRoutes ].

Definition handle (req : Request) : list string * Outcome :=
  runLayers app None req.

End Application.

End App.

(* ===================================================================== *)
(** * The core behind the router                                           *)
(* ===================================================================== *)

Module Service.
Import Core Js Routes.

Open Scope string_scope.

(** Modelled from the spec: the message of the [Error] thrown for a failure
    of the core (digipin.js is missing); the failures are named, the message
    is the name. *)
Definition failureMessage (f : Failure) : string :=
  match f with
  | CoordinateOutOfRange Latitude Lower =>
      "CoordinateOutOfRange: latitude below the minimum"
  | CoordinateOutOfRange Latitude Upper =>
      "CoordinateOutOfRange: latitude above the maximum"
  | CoordinateOutOfRange Longitude Lower =>
      "CoordinateOutOfRange: longitude below the minimum"
  | CoordinateOutOfRange Longitude Upper =>
      "CoordinateOutOfRange: longitude above the maximum"
  | InvalidCodeLength => "InvalidCodeLength"
  | InvalidCodeSymbol => "InvalidCodeSymbol"
  end.

(** An [Error] thrown with the message [msg]. *)
Definition thrown (msg : string) : JsError :=
  {| message := msg; isSyntaxError := false; status := None;
     hasBody := false |}.

(** Modelled from the spec: how an outcome of the core reaches the router
    (digipin.js is missing): a value is returned, a failure is thrown as an
    [Error] with its message, and so is an access outside the table. *)
Definition toResult (A B : Type) (f : A -> B) (o : Core.Outcome A)
  : CoreResult B :=
  match o with
  | Ok a => Returned (f a)
  | Fails k => Threw (thrown (failureMessage k))
  | OutOfTable => Threw (thrown "TypeError")
  end.

(** The bound a number that is not finite is reported against. *)
Definition sideOf (n : JsNumber) : Bound :=
  match n with
  | PosInfinity => Upper
  | _ => Lower
  end.

(** Modelled from the spec: a box as the object {minLat, maxLat, minLon,
    maxLon} of the data model (digipin.js is missing). *)
Definition boxValue (b : BoundingBox) : JsValue :=
  VObject [("minLat", VNumber (Finite (minLat b)));
           ("maxLat", VNumber (Finite (maxLat b)));
           ("minLon", VNumber (Finite (minLon b)));
           ("maxLon", VNumber (Finite (maxLon b)))].

(** Modelled from the spec: the object the decoder returns, the midpoint and
    the box (digipin.js is missing). *)
Definition coordsValue (d : Decoded) : JsValue :=
  VObject [("latitude", VNumber (Finite (latitude d)));
           ("longitude", VNumber (Finite (longitude d)));
           ("boundingBox", boxValue (box d))].

(** Modelled from the spec: the two functions of the missing digipin.js as
    the router calls them.  The encoder is defined on finite numbers, the
    only ones the routes pass on; a [NaN] or an infinity, which is in no
    interval, is refused here as out of range. *)
Definition specCore (K : Constants) : CoreApi :=
  {| getDigiPin := fun lat lon =>
       match lat, lon with
       | Finite a, Finite b => toResult (fun code => code) (encode K a b)
       | Finite _, _ =>
           Threw (thrown (failureMessage
                            (CoordinateOutOfRange Longitude (sideOf lon))))
       | _, _ =>
           Threw (thrown (failureMessage
                            (CoordinateOutOfRange Latitude (sideOf lat))))
       end;
     getLatLngFromDigiPin := fun code => toResult coordsValue (decode K code) |}.

End Service.

(* ===================================================================== *)
(** * Sample requests                                                      *)
(* ===================================================================== *)

Module Samples.
Import Js Routes App Service.

Open Scope string_scope.

Definition sampleBody (latitude longitude : JsValue) : Request :=
  {| method := "POST"; path := "/encode";
     headers := [("content-type", "application/json")];
     body := [("latitude", latitude); ("longitude", longitude)];
     query := [] |}.

Definition sampleDecodeQuery (digipin : JsValue) : Request :=
  {| method := "GET"; path := "/decode"; headers := [];
     body := []; query := [("digipin", digipin)] |}.

Definition sampleDecodeBody (digipin : JsValue) : Request :=
  {| method := "POST"; path := "/decode";
     headers := [("content-type", "application/json")];
     body := [("digipin", digipin)]; query := [] |}.

Definition samplePut : Request :=
  {| method := "PUT"; path := "/anything/at/all";
     headers := [("content-type", "text/plain")];
     body := []; query := [] |}.

(** A middleware that only calls [next()], to stand for the packages. *)
Definition passThrough : Middleware := fun req => Next req.

(** The application with the published grid behind the router. *)
Definition sampleHandle (req : Request) : list string * Outcome :=
  handle passThrough passThrough passThrough passThrough
         (specCore Core.digipin) req.

End Samples.


(* ===================================================================== *)
(** * Vocabulary for the properties of the adapter                         *)
(* ===================================================================== *)

Module Catalogue.
Import Js Routes App.

Open Scope string_scope.

(** Every code the four routes can put in an answer. *)
Definition routeCodes : list string :=
  ["MISSING_LATITUDE"; "MISSING_LONGITUDE"; "MISSING_PARAMETERS";
   "INVALID_LATITUDE"; "INVALID_LONGITUDE";
   "MISSING_DIGIPIN"; "INVALID_DIGIPIN_TYPE"; "INVALID_DIGIPIN";
   "ENCODING_FAILED"; "DECODING_FAILED"].

(** The four handlers of the router on one request. *)
Definition handlers (req : Request) : list Handler :=
  [postEncode req; postDecode req; getEncode req; getDecode req].

(** Whether the handler calls the core and the call returns. *)
Definition coreReturned (core : CoreApi) (h : Handler) : bool :=
  match h with
  | Respond _ => false
  | CallGetDigiPin lat lon _ =>
      match getDigiPin core lat lon with
      | Returned _ => true
      | Threw _ => false
      end
  | CallGetLatLngFromDigiPin digipin _ =>
      match getLatLngFromDigiPin core digipin with
      | Returned _ => true
      | Threw _ => false
      end
  end.

(** The answer of [jsonErrorHandler] to a body that is not JSON. *)
Definition invalidJsonSyntax (err : JsError) : Response :=
  {| statusCode := 400;
     json := VObject
       [("error", VString ("Invalid JSON payload: " ++ message err));
        ("code", VString "INVALID_JSON_SYNTAX");
        ("details",
         VString "Ensure your JSON is properly formatted with correct syntax")] |}.

(** The error [express.json()] raises on a malformed body. *)
Definition sampleSyntaxError : JsError :=
  {| message := "Unexpected token } in JSON at position 12";
     isSyntaxError := true; status := Some 400%nat; hasBody := true |}.

(** An error that is not a JSON syntax error: a body over the size limit. *)
Definition sampleTooLarge : JsError :=
  {| message := "request entity too large";
     isSyntaxError := false; status := Some 413%nat; hasBody := false |}.

(** A body parser that fails with [err] on every request. *)
Definition failingParser (err : JsError) : Middleware :=
  fun req => NextError err req.

Definition sampleJsonPost (p : string) (b : JsObject) : Request :=
  {| method := "POST"; path := p;
     headers := [("content-type", "application/json; charset=utf-8")];
     body := b; query := [] |}.

Definition sampleGet (p : string) (q : JsObject) : Request :=
  {| method := "GET"; path := p; headers := []; body := []; query := q |}.

(** A request with the same [digipin] in the body and in the query. *)
Definition sampleBoth (digipin : JsValue) : Request :=
  {| method := "POST"; path := "/decode";
     headers := [("content-type", "application/json")];
     body := [("digipin", digipin)]; query := [("digipin", digipin)] |}.

End Catalogue.


(* ===================================================================== *)
(** * Properties of the core                                               *)
(* ===================================================================== *)

Module CoreFacts.
Import Core.
Open Scope Q_scope.

Lemma clamp_range (x : Z) : (0 <= clamp x <= 3)%Z.
Proof. unfold clamp. lia. Qed.

Lemma quarter_pos (lo hi : Q) : lo < hi -> 0 < (hi - lo) / 4.
Proof. intros H. apply Qlt_shift_div_l; lra. Qed.

(** One axis of a level: the quarter numbered by the floor holds the point. *)
Lemma slot_bounds (lo hi x : Q) :
  lo < hi -> lo <= x <= hi ->
  let d := (hi - lo) / 4 in
  let f := Qfloor ((x - lo) / d) in
  (0 <= f <= 4)%Z /\ lo + d * inject_Z f <= x /\ x < lo + d * inject_Z (f + 1).
Proof.
  intros Hlt [Hlo Hhi] d f.
  assert (Hd : 0 < d) by (apply quarter_pos; exact Hlt).
  assert (Ht : (x - lo) / d * d == x - lo) by (field; lra).
  pose proof (Qfloor_le ((x - lo) / d)) as Hf1.
  pose proof (Qlt_floor ((x - lo) / d)) as Hf2.
  fold f in Hf1, Hf2.
  set (t := (x - lo) / d) in *.
  assert (H4 : d * 4 == hi - lo) by (unfold d; field).
  assert (Ht0 : 0 <= t) by (apply Qle_shift_div_l; lra).
  assert (Ht4 : t <= 4) by (apply Qle_shift_div_r; lra).
  split; [split|split].
  - change 0%Z with (Qfloor 0). apply Qfloor_resp_le. exact Ht0.
  - change 4%Z with (Qfloor 4). apply Qfloor_resp_le. exact Ht4.
  - clearbody t d f. nra.
  - rewrite inject_Z_plus in *. change (inject_Z 1) with 1 in *.
    clearbody t d f. nra.
Qed.

(** The same with the index clamped: a point on the upper edge, whose floor
    is 4, falls in the last quarter. *)
Lemma slot_clamped (lo hi x : Q) :
  lo < hi -> lo <= x <= hi ->
  let d := (hi - lo) / 4 in
  let i := clamp (Qfloor ((x - lo) / d)) in
  lo + d * inject_Z i <= x <= lo + d * inject_Z (i + 1).
Proof.
  intros Hlt Hx d i.
  destruct (slot_bounds Hlt Hx) as [[Hf0 Hf4] [Hlow Hup]].
  fold d in Hf0, Hf4, Hlow, Hup.
  assert (Hd : 0 < d) by (apply quarter_pos; exact Hlt).
  assert (H4 : d * 4 == hi - lo) by (unfold d; field).
  set (f := Qfloor ((x - lo) / d)) in *.
  destruct (Z.eq_dec f 4) as [E | N].
  - assert (Hi : i = 3%Z) by (unfold i, clamp; lia).
    rewrite Hi. rewrite E in Hlow.
    change (inject_Z 4) with 4 in Hlow.
    change (inject_Z (3 + 1)) with 4. change (inject_Z 3) with 3.
    destruct Hx as [_ Hhi]. clearbody d. split; lra.
  - assert (Hi : i = f) by (unfold i, clamp; lia).
    rewrite Hi. split; [exact Hlow | apply Qlt_le_weak; exact Hup].
Qed.

Lemma clamp_mirror (f : Z) : (3 - clamp (3 - f) = clamp f)%Z.
Proof. unfold clamp. lia. Qed.

Lemma cellOf_range (b : BoundingBox) (lat lon : Q) :
  (0 <= fst (cellOf b lat lon) <= 3)%Z /\ (0 <= snd (cellOf b lat lon) <= 3)%Z.
Proof. unfold cellOf. simpl. split; apply clamp_range. Qed.

Lemma minLat_narrow (b : BoundingBox) (row col : Z) :
  minLat (narrow b row col) == minLat b + latDiv b * inject_Z (3 - row).
Proof. apply Qred_correct. Qed.

Lemma maxLat_narrow (b : BoundingBox) (row col : Z) :
  maxLat (narrow b row col) == minLat b + latDiv b * inject_Z (4 - row).
Proof. apply Qred_correct. Qed.

Lemma minLon_narrow (b : BoundingBox) (row col : Z) :
  minLon (narrow b row col) == minLon b + lonDiv b * inject_Z col.
Proof. apply Qred_correct. Qed.

Lemma maxLon_narrow (b : BoundingBox) (row col : Z) :
  maxLon (narrow b row col) == minLon b + lonDiv b * inject_Z (col + 1).
Proof. apply Qred_correct. Qed.

(** The cell chosen by a level holds the point, also when the point lies on
    an edge of the box or of a cell. *)
Lemma narrow_contains (b : BoundingBox) (lat lon : Q) :
  valid b -> contains b lat lon ->
  contains (narrow b (fst (cellOf b lat lon)) (snd (cellOf b lat lon))) lat lon.
Proof.
  intros [Vlat Vlon] [Clat Clon].
  pose proof (slot_clamped Vlat Clat) as Hlat.
  pose proof (slot_clamped Vlon Clon) as Hlon.
  unfold contains.
  rewrite minLat_narrow, maxLat_narrow, minLon_narrow, maxLon_narrow.
  unfold cellOf; cbn [fst snd].
  replace (3 - clamp (3 - Qfloor ((lat - minLat b) / latDiv b)))%Z
    with (clamp (Qfloor ((lat - minLat b) / latDiv b)))
    by (symmetry; apply clamp_mirror).
  replace (4 - clamp (3 - Qfloor ((lat - minLat b) / latDiv b)))%Z
    with (clamp (Qfloor ((lat - minLat b) / latDiv b)) + 1)%Z
    by (rewrite <- clamp_mirror; lia).
  split; [exact Hlat | exact Hlon].
Qed.

Lemma narrow_height (b : BoundingBox) (row col : Z) :
  maxLat (narrow b row col) - minLat (narrow b row col)
  == (maxLat b - minLat b) / 4.
Proof.
  rewrite minLat_narrow, maxLat_narrow.
  replace (4 - row)%Z with ((3 - row) + 1)%Z by lia.
  rewrite inject_Z_plus. change (inject_Z 1) with 1.
  unfold latDiv. field.
Qed.

Lemma narrow_width (b : BoundingBox) (row col : Z) :
  maxLon (narrow b row col) - minLon (narrow b row col)
  == (maxLon b - minLon b) / 4.
Proof.
  rewrite minLon_narrow, maxLon_narrow.
  rewrite inject_Z_plus. change (inject_Z 1) with 1.
  unfold lonDiv. field.
Qed.

Lemma narrow_valid (b : BoundingBox) (row col : Z) :
  valid b -> valid (narrow b row col).
Proof.
  intros [Vlat Vlon].
  pose proof (narrow_height b row col) as Hh.
  pose proof (narrow_width b row col) as Hw.
  pose proof (quarter_pos Vlat) as Hlat.
  pose proof (quarter_pos Vlon) as Hlon.
  split; lra.
Qed.

Lemma pow4_succ (n : nat) : pow4 (S n) == 4 * pow4 n.
Proof.
  unfold pow4. rewrite Nat2Z.inj_succ, Z.pow_succ_r by lia.
  rewrite inject_Z_mult. reflexivity.
Qed.

Lemma pow4_pos (n : nat) : 0 < pow4 n.
Proof.
  unfold pow4. change 0 with (inject_Z 0). rewrite <- Zlt_Qlt.
  apply Z.pow_pos_nonneg; lia.
Qed.

(** After [n] levels the box is still a box, still holds the point, and each
    of its sides is the side of the first box divided by [4^n]. *)
Lemma boxAfter_invariant (n : nat) :
  forall (b : BoundingBox) (lat lon : Q),
    valid b -> contains b lat lon ->
    valid (boxAfter n b lat lon) /\
    contains (boxAfter n b lat lon) lat lon /\
    maxLat (boxAfter n b lat lon) - minLat (boxAfter n b lat lon)
      == (maxLat b - minLat b) / pow4 n /\
    maxLon (boxAfter n b lat lon) - minLon (boxAfter n b lat lon)
      == (maxLon b - minLon b) / pow4 n.
Proof.
  induction n as [| n IH]; intros b lat lon V C.
  - simpl. repeat split; try apply V; try apply C;
      unfold pow4; simpl; field.
  - simpl.
    destruct (IH _ lat lon (narrow_valid (fst (cellOf b lat lon))
                                         (snd (cellOf b lat lon)) V)
                 (narrow_contains V C)) as (V' & C' & Hh & Hw).
    pose proof (pow4_pos n) as Hp.
    repeat split; try apply V'; try apply C'.
    + rewrite Hh, narrow_height, pow4_succ. field. lra.
    + rewrite Hw, narrow_width, pow4_succ. field. lra.
Qed.

(** ** The symbol table and its inverse *)

Lemma indexOf_None (c : ascii) (l : list ascii) :
  ~ In c l -> indexOf c l = None.
Proof.
  induction l as [| x l IH]; intros Hnot; simpl.
  - reflexivity.
  - destruct (Ascii.eqb_spec x c) as [E | N].
    + exfalso. apply Hnot. left. exact E.
    + rewrite IH; [reflexivity |].
      intros Hin. apply Hnot. right. exact Hin.
Qed.

Lemma indexOf_Some_In (c : ascii) (l : list ascii) (i : nat) :
  indexOf c l = Some i -> In c l.
Proof.
  revert i. induction l as [| x l IH]; intros i; simpl.
  - discriminate.
  - destruct (Ascii.eqb_spec x c) as [E | N].
    + intros _. left. exact E.
    + destruct (indexOf c l) as [j |] eqn:Hj; simpl; [| discriminate].
      intros _. right. apply (IH j). reflexivity.
Qed.

Lemma indexOf_nth (l : list ascii) :
  forall (i : nat) (c : ascii),
    NoDup l -> nth_error l i = Some c -> indexOf c l = Some i.
Proof.
  induction l as [| x l IH]; intros i c Hnd Hnth.
  - destruct i; discriminate.
  - inversion Hnd as [| ? ? Hx Hl]; subst.
    destruct i as [| i]; simpl in *.
    + inversion Hnth; subst. rewrite Ascii.eqb_refl. reflexivity.
    + destruct (Ascii.eqb_spec x c) as [E | N].
      * exfalso. apply Hx. subst x. apply (nth_error_In l i Hnth).
      * rewrite (IH i c Hl Hnth). reflexivity.
Qed.

Lemma NoDup_app_disjoint (A : Type) (l1 l2 : list A) (a : A) :
  NoDup (l1 ++ l2) -> In a l1 -> ~ In a l2.
Proof.
  induction l1 as [| x l1 IH]; simpl; intros Hnd Hin.
  - contradiction.
  - inversion Hnd as [| ? ? Hx Hl]; subst.
    destruct Hin as [E | Hin].
    + subst x. intros H2. apply Hx. apply in_or_app. right. exact H2.
    + apply IH; assumption.
Qed.

Section Table.

Variable K : Constants.
Hypothesis K_wf : WellFormed K.

Lemma lookup_in_table (row col : Z) :
  (0 <= row <= 3)%Z -> (0 <= col <= 3)%Z ->
  exists ch, lookup K row col = Some ch /\ inAlphabet K ch.
Proof.
  intros Hr Hc. unfold lookup.
  replace ((row <? 0)%Z || (col <? 0)%Z) with false
    by (symmetry; apply orb_false_iff; split; apply Z.ltb_ge; lia).
  destruct (nth_error (SymbolGrid K) (Z.to_nat row)) as [r |] eqn:Er.
  - assert (Hlen : List.length r = 4%nat).
    { pose proof (wf_cols K_wf) as Hcols.
      rewrite Forall_forall in Hcols. apply Hcols.
      apply (nth_error_In _ _ Er). }
    destruct (nth_error r (Z.to_nat col)) as [ch |] eqn:Ec.
    + exists ch. split; [reflexivity |].
      unfold inAlphabet. apply in_concat. exists r. split.
      * apply (nth_error_In _ _ Er).
      * apply (nth_error_In _ _ Ec).
    + apply nth_error_None in Ec. lia.
  - apply nth_error_None in Er. rewrite (wf_rows K_wf) in Er. lia.
Qed.

Lemma locateFrom_nth (rows : list (list ascii)) :
  forall (base : Z) (i j : nat) (r : list ascii) (c : ascii),
    NoDup (List.concat rows) ->
    nth_error rows i = Some r -> nth_error r j = Some c ->
    locateFrom c base rows = Some ((base + Z.of_nat i)%Z, Z.of_nat j).
Proof.
  induction rows as [| r0 rows IH]; intros base i j r c Hnd Hi Hj.
  - destruct i; discriminate.
  - simpl in Hnd. destruct i as [| i]; simpl in Hi |- *.
    + inversion Hi; subst r0.
      rewrite (indexOf_nth j (NoDup_app_remove_r _ _ Hnd) Hj).
      f_equal. f_equal. lia.
    + assert (Hin : In c (List.concat rows)).
      { apply in_concat. exists r. split.
        - apply (nth_error_In _ _ Hi).
        - apply (nth_error_In _ _ Hj). }
      rewrite indexOf_None.
      * rewrite (IH (base + 1)%Z i j r c (NoDup_app_remove_l _ _ Hnd) Hi Hj).
        f_equal. f_equal. lia.
      * intros H0. exact (@NoDup_app_disjoint _ _ _ _ Hnd H0 Hin).
Qed.

(** [locate] inverts [lookup]. *)
Lemma locate_lookup (row col : Z) (ch : ascii) :
  lookup K row col = Some ch -> locate K ch = Some (row, col).
Proof.
  unfold lookup, locate. intros H.
  destruct ((row <? 0)%Z || (col <? 0)%Z) eqn:Eneg; [discriminate |].
  apply orb_false_iff in Eneg. destruct Eneg as [Hr Hc].
  apply Z.ltb_ge in Hr. apply Z.ltb_ge in Hc.
  destruct (nth_error (SymbolGrid K) (Z.to_nat row)) as [r |] eqn:Er;
    [| discriminate].
  rewrite (@locateFrom_nth (SymbolGrid K) 0%Z _ _ _ _ (wf_distinct K_wf) Er H).
  f_equal. f_equal; lia.
Qed.

Lemma locateFrom_Some_In (c : ascii) (rows : list (list ascii)) :
  forall (base : Z) (rc : Z * Z),
    locateFrom c base rows = Some rc -> In c (List.concat rows).
Proof.
  induction rows as [| r rows IH]; intros base rc; simpl.
  - discriminate.
  - destruct (indexOf c r) as [j |] eqn:Ej.
    + intros _. apply in_or_app. left. apply (indexOf_Some_In _ _ Ej).
    + intros H. apply in_or_app. right. apply (IH _ _ H).
Qed.

Lemma locateFrom_None (c : ascii) (rows : list (list ascii)) :
  forall base : Z, ~ In c (List.concat rows) -> locateFrom c base rows = None.
Proof.
  induction rows as [| r rows IH]; intros base Hnot; simpl.
  - reflexivity.
  - simpl in Hnot. rewrite indexOf_None.
    + apply IH. intros H. apply Hnot. apply in_or_app. right. exact H.
    + intros H. apply Hnot. apply in_or_app. left. exact H.
Qed.

(** A symbol is located exactly when it belongs to the alphabet. *)
Lemma locate_None_iff (c : ascii) : locate K c = None <-> ~ inAlphabet K c.
Proof.
  unfold locate, inAlphabet. split.
  - intros H Hin. destruct (In_nth_error _ _ Hin) as [n Hn]. clear Hn.
    apply in_concat in Hin. destruct Hin as (r & Hr & Hc).
    destruct (In_nth_error _ _ Hr) as [i Hi].
    destruct (In_nth_error _ _ Hc) as [j Hj].
    rewrite (@locateFrom_nth (SymbolGrid K) 0%Z _ _ _ _ (wf_distinct K_wf) Hi Hj) in H.
    discriminate.
  - apply locateFrom_None.
Qed.

(** ** The loop of the encoder *)


Lemma strip_withSeparators (symbols : list ascii) :
  forall level : nat,
    Forall (inAlphabet K) symbols ->
    strip K (withSeparators K level symbols) = symbols.
Proof.
  induction symbols as [| c rest IH]; intros level Hall.
  - reflexivity.
  - inversion Hall as [| ? ? Hc Hrest]; subst.
    assert (Hne : Ascii.eqb c (separator K) = false).
    { apply Ascii.eqb_neq. intros E. apply (wf_separator K_wf).
      rewrite <- E. exact Hc. }
    simpl. rewrite Hne. simpl.
    destruct (separatorLevel level); simpl.
    + rewrite Ascii.eqb_refl. simpl. f_equal. apply IH. exact Hrest.
    + f_equal. apply IH. exact Hrest.
Qed.

(** The loop always yields a string: the symbols of the cells it went
    through, with the separators; the decoder's loop, run on these symbols
    from the same box, ends in the box the encoder reached. *)
Lemma encodeFrom_spec (n : nat) :
  forall (level : nat) (b : BoundingBox) (lat lon : Q),
  exists symbols,
    encodeFrom K n level b lat lon = Some (withSeparators K level symbols) /\
    List.length symbols = n /\
    Forall (inAlphabet K) symbols /\
    decodeFrom K symbols b = Some (boxAfter n b lat lon).
Proof.
  induction n as [| n IH]; intros level b lat lon.
  - exists []. repeat split. constructor.
  - destruct (cellOf_range b lat lon) as [Hr Hc].
    cbn [encodeFrom boxAfter].
    destruct (cellOf b lat lon) as [row col] eqn:Ecell.
    cbn [fst snd] in Hr, Hc |- *.
    destruct (lookup_in_table Hr Hc) as (ch & Hch & Hin).
    destruct (IH (S level) (narrow b row col) lat lon)
      as (rest & Henc & Hlen & Hall & Hdec).
    exists (ch :: rest). rewrite Hch, Henc.
    cbn [withSeparators decodeFrom List.length].
    rewrite (locate_lookup _ _ Hch).
    repeat split.
    + rewrite Hlen. reflexivity.
    + constructor; assumption.
    + exact Hdec.
Qed.

Lemma withSeparators_late (symbols : list ascii) :
  forall level : nat,
    (7 <= level)%nat -> withSeparators K level symbols = symbols.
Proof.
  induction symbols as [| c rest IH]; intros level Hl.
  - reflexivity.
  - simpl.
    replace (separatorLevel level) with false.
    + simpl. f_equal. apply IH. lia.
    + unfold separatorLevel. symmetry. apply orb_false_iff.
      split; apply Nat.eqb_neq; lia.
Qed.

(** With six symbols or more, the separators stand after the 3rd and after
    the 6th symbol. *)
Lemma withSeparators_shape (symbols : list ascii) :
  (6 <= List.length symbols)%nat ->
  withSeparators K 1 symbols
  = firstn 3 symbols ++ separator K
      :: firstn 3 (skipn 3 symbols) ++ separator K :: skipn 6 symbols.
Proof.
  intros Hlen.
  do 6 (destruct symbols as [| ? symbols]; [simpl in Hlen; lia |]).
  simpl. rewrite withSeparators_late by lia. reflexivity.
Qed.

Lemma decodeFrom_None (symbols : list ascii) :
  forall b : BoundingBox,
    (exists c, In c symbols /\ ~ inAlphabet K c) ->
    decodeFrom K symbols b = None.
Proof.
  induction symbols as [| x rest IH]; intros b (c & Hin & Hnot).
  - contradiction.
  - simpl. destruct (locate K x) as [[row col] |] eqn:El.
    + destruct Hin as [E | Hin].
      * subst x. apply locate_None_iff in Hnot. congruence.
      * apply IH. exists c. split; assumption.
    + reflexivity.
Qed.

Lemma decodeFrom_None_inv (symbols : list ascii) :
  forall b : BoundingBox,
    decodeFrom K symbols b = None ->
    exists c, In c symbols /\ ~ inAlphabet K c.
Proof.
  induction symbols as [| x rest IH]; intros b H.
  - discriminate.
  - simpl in H. destruct (locate K x) as [[row col] |] eqn:El.
    + destruct (IH _ H) as (c & Hin & Hnot).
      exists c. split; [right; exact Hin | exact Hnot].
    + exists x. split; [left; reflexivity |].
      apply locate_None_iff. exact El.
Qed.

Lemma decodeFrom_Some (symbols : list ascii) :
  forall b : BoundingBox,
    Forall (inAlphabet K) symbols ->
    exists b', decodeFrom K symbols b = Some b'.
Proof.
  induction symbols as [| x rest IH]; intros b Hall.
  - exists b. reflexivity.
  - inversion Hall as [| ? ? Hx Hrest]; subst. simpl.
    destruct (locate K x) as [[row col] |] eqn:El.
    + apply IH. exact Hrest.
    + exfalso. apply locate_None_iff in El. contradiction.
Qed.

Lemma encode_in_root (lat lon : Q) :
  inRoot K lat lon ->
  exists symbols,
    encode K lat lon
      = Ok (string_of_list_ascii (withSeparators K 1 symbols)) /\
    List.length symbols = L K /\
    Forall (inAlphabet K) symbols /\
    decodeFrom K symbols (root K) = Some (boxAfter (L K) (root K) lat lon).
Proof.
  intros [[H1 H2] [H3 H4]].
  destruct (encodeFrom_spec (L K) 1 (root K) lat lon)
    as (symbols & Henc & Hlen & Hall & Hdec).
  exists symbols. unfold encode, checkRange.
  destruct (Qlt_le_dec lat (minLat (root K))); [lra |].
  destruct (Qlt_le_dec (maxLat (root K)) lat); [lra |].
  destruct (Qlt_le_dec lon (minLon (root K))); [lra |].
  destruct (Qlt_le_dec (maxLon (root K)) lon); [lra |].
  rewrite Henc. repeat split; assumption.
Qed.

End Table.

(** The constants of the published grid satisfy the invariants. *)
Lemma digipin_wf : WellFormed digipin.
Proof.
  constructor; simpl.
  - reflexivity.
  - reflexivity.
  - reflexivity.
  - repeat constructor.
  - repeat (constructor; [simpl; intuition discriminate |]). constructor.
  - simpl. intuition discriminate.
Qed.

Section Claims.

Variable K : Constants.
Hypothesis K_wf : WellFormed K.

(** C1 (round-trip bound).  For a point of the root box the encoder returns a
    code, the decoder accepts this code, the box it returns holds the point,
    and its midpoint is within half the diagonal of a cell of the last level
    of the point: the squared distance is at most a quarter of the squared
    diagonal [cellHeight^2 + cellWidth^2]. *)
Theorem roundtrip_bound (lat lon : Q) :
  inRoot K lat lon ->
  exists (code : string) (d : Decoded),
    encode K lat lon = Ok code /\
    decode K code = Ok d /\
    contains (box d) lat lon /\
    (lat - latitude d) * (lat - latitude d)
      + (lon - longitude d) * (lon - longitude d)
    <= (cellHeight K * cellHeight K + cellWidth K * cellWidth K) / 4.
Proof.
  intros Hin.
  destruct (encode_in_root K_wf Hin) as (symbols & Henc & Hlen & Hall & Hdec).
  assert (V : valid (root K)) by (split; [apply (wf_lat K_wf) | apply (wf_lon K_wf)]).
  destruct (boxAfter_invariant (L K) V Hin) as (_ & C & Hh & Hw).
  set (b := boxAfter (L K) (root K) lat lon) in *.
  exists (string_of_list_ascii (withSeparators K 1 symbols)).
  exists {| box := b; latitude := fst (midpoint b);
            longitude := snd (midpoint b) |}.
  split; [exact Henc |]. split.
  - unfold decode. rewrite list_ascii_of_string_of_list_ascii.
    rewrite (strip_withSeparators K_wf 1 Hall), Hlen, Nat.eqb_refl. simpl.
    rewrite Hdec. reflexivity.
  - split; [exact C |]. cbn [latitude longitude box midpoint fst snd].
    unfold cellHeight, cellWidth.
    rewrite <- Hh, <- Hw.
    destruct C as [[C1 C2] [C3 C4]].
    assert (Elat : (lat - (minLat b + maxLat b) / 2) * (lat - (minLat b + maxLat b) / 2)
                   == (maxLat b - minLat b) * (maxLat b - minLat b) / 4
                      - (lat - minLat b) * (maxLat b - lat)) by field.
    assert (Elon : (lon - (minLon b + maxLon b) / 2) * (lon - (minLon b + maxLon b) / 2)
                   == (maxLon b - minLon b) * (maxLon b - minLon b) / 4
                      - (lon - minLon b) * (maxLon b - lon)) by field.
    rewrite Elat, Elon.
    assert (P1 : 0 <= (lat - minLat b) * (maxLat b - lat))
      by (apply Qmult_le_0_compat; lra).
    assert (P2 : 0 <= (lon - minLon b) * (maxLon b - lon))
      by (apply Qmult_le_0_compat; lra).
    clear Hh Hw Elat Elon Hdec. clearbody b.
    set (p1 := (lat - minLat b) * (maxLat b - lat)) in *.
    set (p2 := (lon - minLon b) * (maxLon b - lon)) in *.
    set (h2 := (maxLat b - minLat b) * (maxLat b - minLat b)).
    set (w2 := (maxLon b - minLon b) * (maxLon b - minLon b)).
    clearbody p1 p2 h2 w2.
    unfold Qdiv. change (/ 4) with (1 # 4). lra.
Qed.

(** C2 (fixed shape).  The code of a point of the root box is made of [L]
    symbols of the alphabet, which are what is left once the separators are
    stripped, and of separators written right after the symbols of level 3
    and 6 and nowhere else: with six levels or more, one separator right
    after the 3rd symbol and one right after the 6th. *)
Theorem encode_fixed_shape (lat lon : Q) :
  inRoot K lat lon ->
  exists (code : string) (symbols : list ascii),
    encode K lat lon = Ok code /\
    strip K (list_ascii_of_string code) = symbols /\
    List.length symbols = L K /\
    Forall (inAlphabet K) symbols /\
    ~ In (separator K) symbols /\
    list_ascii_of_string code = withSeparators K 1 symbols /\
    ((6 <= L K)%nat ->
     list_ascii_of_string code
     = firstn 3 symbols ++ separator K
         :: firstn 3 (skipn 3 symbols) ++ separator K :: skipn 6 symbols).
Proof.
  intros Hin.
  destruct (encode_in_root K_wf Hin) as (symbols & Henc & Hlen & Hall & _).
  exists (string_of_list_ascii (withSeparators K 1 symbols)), symbols.
  rewrite list_ascii_of_string_of_list_ascii.
  split; [exact Henc |].
  split; [apply (strip_withSeparators K_wf); exact Hall |].
  split; [exact Hlen |].
  split; [exact Hall |].
  split; [| split].
  - intros Hs. rewrite Forall_forall in Hall.
    apply (wf_separator K_wf). apply Hall. exact Hs.
  - reflexivity.
  - intros H6. apply withSeparators_shape. lia.
Qed.

(** C5 (clamping safety).  At every level the row and the column computed
    for a point of the root box lie in [0,3], the table holds a symbol at
    that cell, and the cell holds the point, also when the point lies on an
    edge; the encoder never indexes the table outside its cells. *)
Theorem encode_clamping_safe (lat lon : Q) :
  inRoot K lat lon ->
  (forall level : nat,
      (level < L K)%nat ->
      let b := boxAfter level (root K) lat lon in
      let rc := cellOf b lat lon in
      (0 <= fst rc <= 3)%Z /\ (0 <= snd rc <= 3)%Z /\
      (exists ch, lookup K (fst rc) (snd rc) = Some ch /\ inAlphabet K ch) /\
      contains (narrow b (fst rc) (snd rc)) lat lon) /\
  encode K lat lon <> OutOfTable.
Proof.
  intros Hin. split.
  - intros level _ b rc.
    assert (V : valid (root K))
      by (split; [apply (wf_lat K_wf) | apply (wf_lon K_wf)]).
    destruct (boxAfter_invariant level V Hin) as (Vb & Cb & _ & _).
    destruct (cellOf_range b lat lon) as [Hr Hc].
    split; [exact Hr |]. split; [exact Hc |]. split.
    + apply (lookup_in_table K_wf Hr Hc).
    + apply narrow_contains; assumption.
  - destruct (encode_in_root K_wf Hin) as (symbols & Henc & _).
    rewrite Henc. discriminate.
Qed.

(** C3 (range rejection).  The encoder fails with [CoordinateOutOfRange]
    exactly when the latitude or the longitude is outside the root box; the
    failure names an axis and a bound that the point is beyond, and the
    encoder fails in no other way. *)
Theorem encode_range_rejection (lat lon : Q) :
  ((exists axis bound,
       encode K lat lon = Fails (CoordinateOutOfRange axis bound))
   <-> (lat < minLat (root K) \/ maxLat (root K) < lat \/
        lon < minLon (root K) \/ maxLon (root K) < lon)) /\
  (forall axis bound,
      encode K lat lon = Fails (CoordinateOutOfRange axis bound) ->
      violates K axis bound lat lon) /\
  (forall f, encode K lat lon = Fails f ->
             exists axis bound, f = CoordinateOutOfRange axis bound).
Proof.
  unfold encode, checkRange.
  destruct (Qlt_le_dec lat (minLat (root K))) as [A | A];
    [| destruct (Qlt_le_dec (maxLat (root K)) lat) as [B | B];
       [| destruct (Qlt_le_dec lon (minLon (root K))) as [C | C];
          [| destruct (Qlt_le_dec (maxLon (root K)) lon) as [D | D]]]].
  1-4: split; [split; [intros _; tauto | intros _; eexists; eexists; reflexivity]
              | split; [intros axis bound H; inversion H; subst; exact A
                                || (inversion H; subst; exact B)
                                || (inversion H; subst; exact C)
                                || (inversion H; subst; exact D)
                       | intros f H; inversion H; eexists; eexists; reflexivity]].
  destruct (encodeFrom K (L K) 1 (root K) lat lon) as [code |].
  - split; [split |].
    + intros (axis & bound & H). discriminate.
    + intros H. lra.
    + split; intros; discriminate.
  - split; [split |].
    + intros (axis & bound & H). discriminate.
    + intros H. lra.
    + split; intros; discriminate.
Qed.

(** C4 (decode validation).  Once the separators are removed, a string that
    does not have exactly [L] characters or that holds a character outside
    the alphabet is refused, with [InvalidCodeLength] or with
    [InvalidCodeSymbol] and in no other way.  The kind names a defect the
    string has: [InvalidCodeLength] is only reported for a wrong number of
    characters and is the answer when that is the only defect,
    [InvalidCodeSymbol] is only reported for a character outside the
    alphabet and is the answer when that is the only defect.  The two kinds
    are distinct, and a string with neither defect is decoded.  Nothing here
    depends on which of the two checks comes first. *)
Theorem decode_validation (code : string) :
  let pin := strip K (list_ascii_of_string code) in
  let wrongLength := List.length pin <> L K in
  let foreignSymbol := exists c, In c pin /\ ~ inAlphabet K c in
  (wrongLength \/ foreignSymbol ->
   decode K code = Fails InvalidCodeLength \/
   decode K code = Fails InvalidCodeSymbol) /\
  (decode K code = Fails InvalidCodeLength -> wrongLength) /\
  (decode K code = Fails InvalidCodeSymbol -> foreignSymbol) /\
  (wrongLength -> ~ foreignSymbol ->
   decode K code = Fails InvalidCodeLength) /\
  (foreignSymbol -> ~ wrongLength ->
   decode K code = Fails InvalidCodeSymbol) /\
  (~ wrongLength -> Forall (inAlphabet K) pin ->
   exists d, decode K code = Ok d) /\
  (forall f, decode K code = Fails f ->
             f = InvalidCodeLength \/ f = InvalidCodeSymbol) /\
  decode K code <> OutOfTable /\
  InvalidCodeLength <> InvalidCodeSymbol.
Proof.
  intros pin wrongLength foreignSymbol.
  unfold wrongLength, foreignSymbol, decode. fold pin.
  destruct (Nat.eqb_spec (List.length pin) (L K)) as [Hlen | Hlen];
    cbn [negb].
  - destruct (decodeFrom K pin (root K)) as [b |] eqn:Hdec.
    + assert (Hnone : ~ (exists c, In c pin /\ ~ inAlphabet K c)).
      { intros Hbad. rewrite (decodeFrom_None K_wf _ (root K) Hbad) in Hdec.
        discriminate. }
      split; [intros [H | H]; contradiction |].
      split; [discriminate |].
      split; [discriminate |].
      split; [intros H; contradiction |].
      split; [intros H; contradiction |].
      split; [intros _ _; eexists; reflexivity |].
      split; [intros f Hf; discriminate |].
      split; discriminate.
    + pose proof (decodeFrom_None_inv K_wf _ _ Hdec) as Hbad.
      split; [intros _; right; reflexivity |].
      split; [discriminate |].
      split; [intros _; exact Hbad |].
      split; [intros H; contradiction |].
      split; [intros _ _; reflexivity |].
      split.
      { intros _ Hall.
        destruct (decodeFrom_Some K_wf (root K) Hall) as [b' Hb'].
        rewrite Hb' in Hdec. discriminate. }
      split; [intros f Hf; inversion Hf; right; reflexivity |].
      split; discriminate.
  - split; [intros _; left; reflexivity |].
    split; [intros _; exact Hlen |].
    split; [discriminate |].
    split; [intros _ _; reflexivity |].
    split; [intros _ H; contradiction |].
    split; [intros H; contradiction |].
    split; [intros f Hf; inversion Hf; left; reflexivity |].
    split; discriminate.
Qed.

End Claims.

(** ** The claims on the published grid *)

Lemma roundtrip_bound_witness :
  inRoot digipin 28.6139 77.2090 /\
  exists (code : string) (d : Decoded),
    encode digipin 28.6139 77.2090 = Ok code /\
    decode digipin code = Ok d /\
    contains (box d) 28.6139 77.2090 /\
    (28.6139 - latitude d) * (28.6139 - latitude d)
      + (77.2090 - longitude d) * (77.2090 - longitude d)
    <= (cellHeight digipin * cellHeight digipin
        + cellWidth digipin * cellWidth digipin) / 4.
Proof.
  assert (H : inRoot digipin 28.6139 77.2090)
    by (unfold inRoot, contains; simpl; repeat split; discriminate).
  split; [exact H | exact (roundtrip_bound digipin_wf H)].
Defined.

Lemma encode_fixed_shape_witness :
  inRoot digipin 38.5 63.5 /\
  exists (code : string) (symbols : list ascii),
    encode digipin 38.5 63.5 = Ok code /\
    strip digipin (list_ascii_of_string code) = symbols /\
    List.length symbols = L digipin /\
    Forall (inAlphabet digipin) symbols /\
    ~ In (separator digipin) symbols /\
    list_ascii_of_string code = withSeparators digipin 1 symbols /\
    ((6 <= L digipin)%nat ->
     list_ascii_of_string code
     = firstn 3 symbols ++ separator digipin
         :: firstn 3 (skipn 3 symbols) ++ separator digipin :: skipn 6 symbols).
Proof.
  assert (H : inRoot digipin 38.5 63.5)
    by (unfold inRoot, contains; simpl; repeat split; discriminate).
  split; [exact H |].
  exact (encode_fixed_shape digipin_wf H).
Defined.

Lemma encode_clamping_safe_witness :
  inRoot digipin 11.5 99.5 /\
  encode digipin 11.5 99.5 <> OutOfTable.
Proof.
  assert (H : inRoot digipin 11.5 99.5)
    by (unfold inRoot, contains; simpl; repeat split; discriminate).
  split; [exact H |].
  exact (proj2 (encode_clamping_safe digipin_wf H)).
Defined.

Lemma encode_range_rejection_witness :
  2.4 < minLat (root digipin) /\
  exists axis bound,
    encode digipin 2.4 77.2090 = Fails (CoordinateOutOfRange axis bound).
Proof.
  assert (H : 2.4 < minLat (root digipin)) by reflexivity.
  split; [exact H |].
  apply (proj1 (encode_range_rejection digipin 2.4 77.2090)).
  left. exact H.
Defined.

Lemma decode_validation_witness :
  List.length (strip digipin (list_ascii_of_string "39J-438-TJ")) <> L digipin /\
  (decode digipin "39J-438-TJ" = Fails InvalidCodeLength \/
   decode digipin "39J-438-TJ" = Fails InvalidCodeSymbol).
Proof.
  assert (H : List.length (strip digipin (list_ascii_of_string "39J-438-TJ"))
              <> L digipin) by (simpl; discriminate).
  split; [exact H |].
  exact (proj1 (decode_validation digipin_wf "39J-438-TJ") (or_introl H)).
Defined.

(** The scenario of the specification: a point near New Delhi. *)
Example encode_new_delhi :
  encode digipin 28.6139 77.2090 = Ok "39J-438-TJC7"%string.
Proof. vm_compute. reflexivity. Qed.

Example decode_new_delhi :
  match decode digipin "39J-438-TJC7" with
  | Ok d => Qred (latitude d) = 15001925 # 524288 /\
            Qred (longitude d) = 40479751 # 524288
  | _ => False
  end.
Proof. vm_compute. split; reflexivity. Qed.

(** On the north-east corner both floors are 4: the row -1 and the column 4
    are clamped to 0 and 3. *)
Example cellOf_corner_north_east :
  cellOf (root digipin) 38.5 99.5 = (0, 3)%Z.
Proof. vm_compute. reflexivity. Qed.

Example encode_corner_north_east :
  encode digipin 38.5 99.5 = Ok "888-888-8888"%string.
Proof. vm_compute. reflexivity. Qed.

Example encode_below_south :
  encode digipin 2.4 77.2090 = Fails (CoordinateOutOfRange Latitude Lower).
Proof. vm_compute. reflexivity. Qed.

Example decode_foreign_symbol :
  decode digipin "39J-438-TJCA" = Fails InvalidCodeSymbol.
Proof. vm_compute. reflexivity. Qed.

End CoreFacts.

(* ===================================================================== *)
(** * Properties of the adapter                                            *)
(* ===================================================================== *)

Module AdapterFacts.
Import Core Js Routes App Service Samples.

Open Scope string_scope.

(** ** Built-ins *)

Lemma length_string_of_list_ascii (l : list ascii) :
  String.length (string_of_list_ascii l) = List.length l.
Proof.
  induction l as [| c l IH]; simpl; [reflexivity | rewrite IH; reflexivity].
Qed.

Lemma skipWhiteSpace_nil (l : list ascii) :
  skipWhiteSpace l = [] <-> forallb isWhiteSpace l = true.
Proof.
  induction l as [| c l IH]; simpl.
  - tauto.
  - destruct (isWhiteSpace c); simpl.
    + exact IH.
    + split; discriminate.
Qed.

Lemma skipWhiteSpace_head (l : list ascii) (c : ascii) (r : list ascii) :
  skipWhiteSpace l = c :: r -> isWhiteSpace c = false.
Proof.
  induction l as [| x l IH]; simpl.
  - discriminate.
  - destruct (isWhiteSpace x) eqn:Ex.
    + exact IH.
    + intros H. inversion H; subst. exact Ex.
Qed.

Lemma forallb_rev (A : Type) (f : A -> bool) (l : list A) :
  forallb f (rev l) = forallb f l.
Proof.
  induction l as [| x l IH]; simpl.
  - reflexivity.
  - rewrite forallb_app, IH. simpl. rewrite andb_true_r. apply andb_comm.
Qed.

(** [trim] leaves nothing exactly of the strings of white space. *)
Lemma trim_blank (s : string) :
  String.length (trim s) = 0%nat <-> isBlank s = true.
Proof.
  unfold trim, trimEnd, trimStart, isBlank.
  rewrite list_ascii_of_string_of_list_ascii, length_string_of_list_ascii.
  rewrite length_rev.
  set (l := list_ascii_of_string s).
  rewrite List.length_zero_iff_nil, skipWhiteSpace_nil, forallb_rev.
  destruct (skipWhiteSpace l) as [| c r] eqn:E.
  - apply skipWhiteSpace_nil in E. rewrite E. simpl. tauto.
  - assert (Hl : forallb isWhiteSpace l = false).
    { destruct (forallb isWhiteSpace l) eqn:Hf; [| reflexivity].
      apply skipWhiteSpace_nil in Hf. congruence. }
    rewrite Hl. simpl. rewrite (skipWhiteSpace_head _ E). simpl.
    split; discriminate.
Qed.

Lemma isValidString_blank (s : string) :
  isValidString (VString s) = negb (isBlank s).
Proof.
  unfold isValidString.
  destruct (isBlank s) eqn:Eb.
  - apply trim_blank in Eb. rewrite Eb. reflexivity.
  - destruct (String.length (trim s)) as [| n] eqn:El.
    + apply trim_blank in El. congruence.
    + reflexivity.
Qed.

Lemma isValidNumber_string (s : string) :
  isValidNumber (VString s) = isFinite (parseFloat s).
Proof.
  unfold isValidNumber. simpl. destruct (parseFloat s); reflexivity.
Qed.

Lemma isValidNumber_nullish (v : JsValue) :
  isNullish v = true -> isValidNumber v = false.
Proof. destruct v; simpl; try discriminate; reflexivity. Qed.

(** A value [isValidNumber] accepts is a finite number or a string that
    [parseFloat] reads as one: the core is only called on finite numbers. *)
Lemma isValidNumber_finite (v : JsValue) :
  isValidNumber v = true -> isFinite (parseFloatValue v) = true.
Proof.
  destruct v as [| | b | n | s | items | fields]; simpl; try discriminate.
  - destruct n; simpl; try discriminate; reflexivity.
  - rewrite isValidNumber_string. tauto.
Qed.

(** In a query string every valid number is a non-empty string. *)
Lemma isValidNumber_string_truthy (s : string) :
  isValidNumber (VString s) = true -> truthy (VString s) = true.
Proof.
  rewrite isValidNumber_string. destruct s as [| c s]; simpl.
  - vm_compute. discriminate.
  - reflexivity.
Qed.

(** ** The shape of the handlers *)

Lemma postEncode_cases (req : Request) :
  (exists r, postEncode req = Respond r /\ statusCode r = 400%nat) \/
  postEncode req
  = CallGetDigiPin (parseFloatValue (getProp (body req) "latitude"))
                   (parseFloatValue (getProp (body req) "longitude"))
                   encodeReply.
Proof.
  unfold postEncode.
  destruct (isNullish _); [left; eexists; split; reflexivity |].
  destruct (isNullish _); [left; eexists; split; reflexivity |].
  destruct (isValidNumber _); simpl; [| left; eexists; split; reflexivity].
  destruct (isValidNumber _); simpl; [| left; eexists; split; reflexivity].
  right. reflexivity.
Qed.

Lemma getEncode_cases (req : Request) :
  (exists r, getEncode req = Respond r /\ statusCode r = 400%nat) \/
  getEncode req
  = CallGetDigiPin (parseFloatValue (getProp (query req) "latitude"))
                   (parseFloatValue (getProp (query req) "longitude"))
                   encodeReply.
Proof.
  unfold getEncode.
  destruct (negb _ || negb _); [left; eexists; split; reflexivity |].
  destruct (isValidNumber _); simpl; [| left; eexists; split; reflexivity].
  destruct (isValidNumber _); simpl; [| left; eexists; split; reflexivity].
  right. reflexivity.
Qed.

Lemma postDecode_cases (req : Request) :
  (exists r, postDecode req = Respond r /\ statusCode r = 400%nat) \/
  (exists s, getProp (body req) "digipin" = VString s /\
             postDecode req = CallGetLatLngFromDigiPin s decodeReply).
Proof.
  unfold postDecode.
  destruct (getProp (body req) "digipin") as [| | b | n | s | items | fields];
    cbn [isNullish]; try (left; eexists; split; reflexivity).
  destruct (isValidString (VString s)); simpl.
  - right. exists s. split; reflexivity.
  - left. eexists. split; reflexivity.
Qed.

Lemma getDecode_cases (req : Request) :
  (exists r, getDecode req = Respond r /\ statusCode r = 400%nat) \/
  (exists s, getProp (query req) "digipin" = VString s /\
             getDecode req = CallGetLatLngFromDigiPin s decodeReply).
Proof.
  unfold getDecode.
  destruct (getProp (query req) "digipin") as [| | b | n | s | items | fields];
    try (left; simpl; eexists; split; reflexivity).
  - destruct (truthy (VBool b)); simpl; left; eexists; split; reflexivity.
  - destruct (truthy (VNumber n)); simpl; left; eexists; split; reflexivity.
  - destruct (truthy (VString s)); cbn [negb];
      [| left; eexists; split; reflexivity].
    destruct (isValidString (VString s)); simpl.
    + right. exists s. split; reflexivity.
    + left. eexists. split; reflexivity.
Qed.

Lemma postEncode_accepts (req : Request) :
  isValidNumber (getProp (body req) "latitude") = true ->
  isValidNumber (getProp (body req) "longitude") = true ->
  postEncode req
  = CallGetDigiPin (parseFloatValue (getProp (body req) "latitude"))
                   (parseFloatValue (getProp (body req) "longitude"))
                   encodeReply.
Proof.
  intros V1 V2. unfold postEncode.
  destruct (isNullish (getProp (body req) "latitude")) eqn:N1.
  { rewrite (isValidNumber_nullish _ N1) in V1. discriminate. }
  destruct (isNullish (getProp (body req) "longitude")) eqn:N2.
  { rewrite (isValidNumber_nullish _ N2) in V2. discriminate. }
  rewrite V1, V2. reflexivity.
Qed.

Lemma getEncode_accepts (req : Request) :
  truthy (getProp (query req) "latitude") = true ->
  truthy (getProp (query req) "longitude") = true ->
  isValidNumber (getProp (query req) "latitude") = true ->
  isValidNumber (getProp (query req) "longitude") = true ->
  getEncode req
  = CallGetDigiPin (parseFloatValue (getProp (query req) "latitude"))
                   (parseFloatValue (getProp (query req) "longitude"))
                   encodeReply.
Proof.
  intros T1 T2 V1 V2. unfold getEncode. rewrite T1, T2, V1, V2. reflexivity.
Qed.

(** ** The claims *)

(** C7 (encode-side gating).  On both encode routes a request whose latitude
    or longitude is missing or is not a valid number is answered with status
    400 and one of the codes MISSING_LATITUDE, MISSING_LONGITUDE,
    MISSING_PARAMETERS, INVALID_LATITUDE, INVALID_LONGITUDE, and the core is
    not called; a request that passes the checks makes exactly one call,
    [getDigiPin] on the [parseFloat] of the two inputs. *)
Theorem encode_gate (req : Request) :
  (let latitude := getProp (body req) "latitude" in
   let longitude := getProp (body req) "longitude" in
   ((isNullish latitude = true \/ isNullish longitude = true \/
     isValidNumber latitude = false \/ isValidNumber longitude = false) ->
    exists r, postEncode req = Respond r /\
              refusedWith encodeGateCodes r /\
              invokesCore (postEncode req) = false) /\
   (isValidNumber latitude = true -> isValidNumber longitude = true ->
    postEncode req
    = CallGetDigiPin (parseFloatValue latitude) (parseFloatValue longitude)
                     encodeReply)) /\
  (let latitude := getProp (query req) "latitude" in
   let longitude := getProp (query req) "longitude" in
   ((truthy latitude = false \/ truthy longitude = false \/
     isValidNumber latitude = false \/ isValidNumber longitude = false) ->
    exists r, getEncode req = Respond r /\
              refusedWith encodeGateCodes r /\
              invokesCore (getEncode req) = false) /\
   (isNullish latitude = true \/ isNullish longitude = true ->
    truthy latitude = false \/ truthy longitude = false) /\
   (truthy latitude = true -> truthy longitude = true ->
    isValidNumber latitude = true -> isValidNumber longitude = true ->
    getEncode req
    = CallGetDigiPin (parseFloatValue latitude) (parseFloatValue longitude)
                     encodeReply)).
Proof.
  split.
  - cbv zeta. unfold postEncode.
    set (latitude := getProp (body req) "latitude").
    set (longitude := getProp (body req) "longitude").
    split.
    + intros H.
      destruct (isNullish latitude) eqn:N1.
      { eexists. split; [reflexivity |]. split; [| reflexivity].
        split; [reflexivity |]. eexists. split; [reflexivity |].
        simpl. tauto. }
      destruct (isNullish longitude) eqn:N2.
      { eexists. split; [reflexivity |]. split; [| reflexivity].
        split; [reflexivity |]. eexists. split; [reflexivity |].
        simpl. tauto. }
      destruct (isValidNumber latitude) eqn:V1; cbn [negb].
      2:{ eexists. split; [reflexivity |]. split; [| reflexivity].
          split; [reflexivity |]. eexists. split; [reflexivity |].
          simpl. tauto. }
      destruct (isValidNumber longitude) eqn:V2; cbn [negb].
      2:{ eexists. split; [reflexivity |]. split; [| reflexivity].
          split; [reflexivity |]. eexists. split; [reflexivity |].
          simpl. tauto. }
      exfalso. destruct H as [H | [H | [H | H]]]; discriminate.
    + intros V1 V2. apply postEncode_accepts; assumption.
  - cbv zeta. unfold getEncode.
    set (latitude := getProp (query req) "latitude").
    set (longitude := getProp (query req) "longitude").
    split; [| split].
    + intros H.
      destruct (truthy latitude) eqn:T1; cbn [negb orb].
      2:{ eexists. split; [reflexivity |]. split; [| reflexivity].
          split; [reflexivity |]. eexists. split; [reflexivity |].
          simpl. tauto. }
      destruct (truthy longitude) eqn:T2; cbn [negb orb].
      2:{ eexists. split; [reflexivity |]. split; [| reflexivity].
          split; [reflexivity |]. eexists. split; [reflexivity |].
          simpl. tauto. }
      destruct (isValidNumber latitude) eqn:V1; cbn [negb].
      2:{ eexists. split; [reflexivity |]. split; [| reflexivity].
          split; [reflexivity |]. eexists. split; [reflexivity |].
          simpl. tauto. }
      destruct (isValidNumber longitude) eqn:V2; cbn [negb].
      2:{ eexists. split; [reflexivity |]. split; [| reflexivity].
          split; [reflexivity |]. eexists. split; [reflexivity |].
          simpl. tauto. }
      exfalso. destruct H as [H | [H | [H | H]]]; discriminate.
    + intros [H | H]; [left | right];
        [destruct latitude | destruct longitude];
        simpl in H; try discriminate; reflexivity.
    + intros T1 T2 V1 V2. apply getEncode_accepts; assumption.
Qed.

Lemma encode_gate_witness :
  isValidNumber (VString "north") = false /\
  exists r,
    postEncode (sampleBody (VString "north") (VNumber (Finite 77.2090)))
    = Respond r /\
    refusedWith encodeGateCodes r /\
    invokesCore
      (postEncode (sampleBody (VString "north") (VNumber (Finite 77.2090))))
    = false.
Proof.
  assert (H : isValidNumber (VString "north") = false) by reflexivity.
  split; [exact H |].
  apply (proj1 (proj1 (encode_gate
                         (sampleBody (VString "north")
                                     (VNumber (Finite 77.2090)))))).
  right. right. left. exact H.
Defined.

(** C8 (decode-side gating), the claim as amended.  On POST /decode a
    [digipin] that is [undefined] or [null] is answered MISSING_DIGIPIN, any
    other value that is not a string INVALID_DIGIPIN_TYPE, a string that is
    empty or blank INVALID_DIGIPIN.  On GET /decode every falsy [digipin],
    the empty string included, is answered MISSING_DIGIPIN, a truthy value
    that is not a string INVALID_DIGIPIN_TYPE, a blank string that is not
    empty INVALID_DIGIPIN.  All these answers have status 400 and are given
    without a call of the core; any other string is passed unchanged to
    [getLatLngFromDigiPin]. *)
Theorem decode_gate (req : Request) :
  (let digipin := getProp (body req) "digipin" in
   (isNullish digipin = true ->
    postDecode req = Respond missingDigipinBody) /\
   (isNullish digipin = false -> typeof digipin <> "string" ->
    postDecode req = Respond (invalidDigipinType digipin)) /\
   (forall s, digipin = VString s -> isBlank s = true ->
    postDecode req = Respond invalidDigipin) /\
   (forall s, digipin = VString s -> isBlank s = false ->
    postDecode req = CallGetLatLngFromDigiPin s decodeReply)) /\
  (let digipin := getProp (query req) "digipin" in
   (truthy digipin = false ->
    getDecode req = Respond missingDigipinQuery) /\
   (truthy digipin = true -> typeof digipin <> "string" ->
    getDecode req = Respond (invalidDigipinType digipin)) /\
   (forall s, digipin = VString s -> s <> "" -> isBlank s = true ->
    getDecode req = Respond invalidDigipin) /\
   (forall s, digipin = VString s -> isBlank s = false ->
    getDecode req = CallGetLatLngFromDigiPin s decodeReply)) /\
  statusCode missingDigipinBody = 400%nat /\
  statusCode missingDigipinQuery = 400%nat /\
  statusCode invalidDigipin = 400%nat /\
  (forall v, statusCode (invalidDigipinType v) = 400%nat /\
             codeOf (invalidDigipinType v) = VString "INVALID_DIGIPIN_TYPE").
Proof.
  split; [| split].
  - cbv zeta. unfold postDecode.
    set (digipin := getProp (body req) "digipin").
    split; [| split; [| split]].
    + intros N. rewrite N. reflexivity.
    + intros N T. rewrite N.
      destruct digipin; try reflexivity. exfalso. apply T. reflexivity.
    + intros s E B. rewrite E. cbn [isNullish].
      rewrite isValidString_blank, B. reflexivity.
    + intros s E B. rewrite E. cbn [isNullish].
      rewrite isValidString_blank, B. reflexivity.
  - cbv zeta. unfold getDecode.
    set (digipin := getProp (query req) "digipin").
    split; [| split; [| split]].
    + intros T. rewrite T. reflexivity.
    + intros T Ty. rewrite T. cbn [negb].
      destruct digipin; try reflexivity. exfalso. apply Ty. reflexivity.
    + intros s E Hne B. rewrite E.
      assert (T : truthy (VString s) = true).
      { destruct s; [congruence | reflexivity]. }
      rewrite T. cbn [negb]. rewrite isValidString_blank, B. reflexivity.
    + intros s E B. rewrite E.
      assert (T : truthy (VString s) = true).
      { destruct s; [discriminate B | reflexivity]. }
      rewrite T. cbn [negb]. rewrite isValidString_blank, B. reflexivity.
  - repeat split.
Qed.

Lemma decode_gate_witness :
  truthy (getProp (query (sampleDecodeQuery (VString ""))) "digipin") = false /\
  getDecode (sampleDecodeQuery (VString "")) = Respond missingDigipinQuery.
Proof.
  assert (H : truthy (getProp (query (sampleDecodeQuery (VString "")))
                              "digipin") = false) by reflexivity.
  split; [exact H |].
  exact (proj1 (proj1 (proj2 (decode_gate (sampleDecodeQuery (VString "")))))
               H).
Defined.

(** C8 as stated fails on GET /decode: an empty [digipin] is answered
    MISSING_DIGIPIN, not INVALID_DIGIPIN. *)
Lemma decode_gate_counterexample :
  getProp (query (sampleDecodeQuery (VString ""))) "digipin" = VString "" /\
  isBlank "" = true /\
  exists r, getDecode (sampleDecodeQuery (VString "")) = Respond r /\
            codeOf r = VString "MISSING_DIGIPIN" /\
            codeOf r <> VString "INVALID_DIGIPIN".
Proof.
  split; [reflexivity |]. split; [reflexivity |].
  eexists. split; [reflexivity |]. split; [reflexivity | discriminate].
Qed.

(** C9 (lenient numbers).  [isValidNumber] accepts every string that
    [parseFloat] reads as a finite number, whatever follows the number, as
    in "77.2abc"; both encode routes then call [getDigiPin] on the numbers
    read at the head of the strings. *)
Theorem lenient_numbers :
  (forall s, isFinite (parseFloat s) = true ->
             isValidNumber (VString s) = true) /\
  parseFloat "77.2abc" = Finite (386 # 5) /\
  isValidNumber (VString "77.2abc") = true /\
  (forall req s1 s2,
      getProp (body req) "latitude" = VString s1 ->
      getProp (body req) "longitude" = VString s2 ->
      isFinite (parseFloat s1) = true -> isFinite (parseFloat s2) = true ->
      postEncode req
      = CallGetDigiPin (parseFloat s1) (parseFloat s2) encodeReply) /\
  (forall req s1 s2,
      getProp (query req) "latitude" = VString s1 ->
      getProp (query req) "longitude" = VString s2 ->
      isFinite (parseFloat s1) = true -> isFinite (parseFloat s2) = true ->
      getEncode req
      = CallGetDigiPin (parseFloat s1) (parseFloat s2) encodeReply).
Proof.
  split; [| split; [| split; [| split]]].
  - intros s H. rewrite isValidNumber_string. exact H.
  - vm_compute. reflexivity.
  - vm_compute. reflexivity.
  - intros req s1 s2 E1 E2 F1 F2.
    pose proof (postEncode_accepts req) as Hpost.
    rewrite E1, E2 in Hpost. rewrite !isValidNumber_string in Hpost.
    exact (Hpost F1 F2).
  - intros req s1 s2 E1 E2 F1 F2.
    pose proof (getEncode_accepts req) as Hget.
    rewrite E1, E2 in Hget.
    assert (V1 : isValidNumber (VString s1) = true)
      by (rewrite isValidNumber_string; exact F1).
    assert (V2 : isValidNumber (VString s2) = true)
      by (rewrite isValidNumber_string; exact F2).
    exact (Hget (isValidNumber_string_truthy _ V1)
                (isValidNumber_string_truthy _ V2) V1 V2).
Qed.

Lemma lenient_numbers_witness :
  isFinite (parseFloat "28.6139N") = true /\
  isFinite (parseFloat "77.2abc") = true /\
  postEncode (sampleBody (VString "28.6139N") (VString "77.2abc"))
  = CallGetDigiPin (parseFloat "28.6139N") (parseFloat "77.2abc") encodeReply.
Proof.
  assert (F1 : isFinite (parseFloat "28.6139N") = true) by reflexivity.
  assert (F2 : isFinite (parseFloat "77.2abc") = true) by reflexivity.
  split; [exact F1 |]. split; [exact F2 |].
  exact (proj1 (proj2 (proj2 (proj2 lenient_numbers)))
               (sampleBody (VString "28.6139N") (VString "77.2abc"))
               "28.6139N" "77.2abc" eq_refl eq_refl F1 F2).
Defined.

(** C10 (content-type gate).  A POST, PUT or PATCH request without a
    Content-Type header, or with one that does not include
    "application/json", is answered 415 INVALID_CONTENT_TYPE by the first
    layer of the chain, whatever its path and whatever the other layers are:
    no other layer runs, neither the body parser nor the router.  The check
    lets every GET request through unchanged. *)
Theorem content_type_gate
        (cors jsonParser morgan swagger : Middleware) (core : CoreApi)
        (req : Request) :
  (method req = "POST" \/ method req = "PUT" \/ method req = "PATCH" ->
   getHeader (headers req) "content-type" = None \/
   (exists ct, getHeader (headers req) "content-type" = Some ct /\
               includes ct "application/json" = false) ->
   exists r,
     handle cors jsonParser morgan swagger core req
     = (["validateJsonContentType"], Sent r) /\
     statusCode r = 415%nat /\
     codeOf r = VString "INVALID_CONTENT_TYPE") /\
  (method req = "GET" -> validateJsonContentType req = Next req).
Proof.
  split.
  - intros Hm Hct.
    assert (Em : String.eqb (method req) "POST" || String.eqb (method req) "PUT"
                 || String.eqb (method req) "PATCH" = true).
    { destruct Hm as [E | [E | E]]; rewrite E; reflexivity. }
    assert (Hv : validateJsonContentType (setPath req (path req))
                 = Ended (unsupportedMediaType
                            (getHeader (headers req) "content-type"))).
    { unfold validateJsonContentType. cbn [setPath method headers].
      rewrite Em.
      destruct Hct as [E | (ct & E & Hinc)]; rewrite E.
      - reflexivity.
      - rewrite Hinc. rewrite orb_true_r. reflexivity. }
    exists (unsupportedMediaType (getHeader (headers req) "content-type")).
    unfold handle, app. cbn [runLayers].
    change (below "/" (path req)) with (Some (path req)).
    cbv iota. rewrite Hv.
    repeat split.
  - intros E. unfold validateJsonContentType. rewrite E. reflexivity.
Qed.

Lemma content_type_gate_witness :
  method samplePut = "PUT" /\
  includes "text/plain" "application/json" = false /\
  exists r,
    sampleHandle samplePut = (["validateJsonContentType"], Sent r) /\
    statusCode r = 415%nat /\
    codeOf r = VString "INVALID_CONTENT_TYPE".
Proof.
  assert (Hm : method samplePut = "PUT") by reflexivity.
  assert (Hi : includes "text/plain" "application/json" = false)
    by reflexivity.
  split; [exact Hm |]. split; [exact Hi |].
  apply (proj1 (content_type_gate passThrough passThrough passThrough
                                  passThrough (specCore digipin) samplePut)).
  - right. left. exact Hm.
  - right. exists "text/plain". split; [reflexivity | exact Hi].
Defined.


(** The routes hand only finite numbers to [getDigiPin]. *)
Lemma getDigiPin_called_on_finite (req : Request) (h : Handler)
      (lat lon : JsNumber) (reply : CoreResult string -> Response) :
  h = postEncode req \/ h = getEncode req ->
  h = CallGetDigiPin lat lon reply ->
  isFinite lat = true /\ isFinite lon = true.
Proof.
  intros [Eh | Eh] Ecall; subst h.
  - unfold postEncode in Ecall.
    destruct (isNullish _); [discriminate |].
    destruct (isNullish _); [discriminate |].
    destruct (isValidNumber (getProp (body req) "latitude")) eqn:V1;
      [| discriminate].
    destruct (isValidNumber (getProp (body req) "longitude")) eqn:V2;
      [| discriminate].
    inversion Ecall; subst.
    split; apply isValidNumber_finite; assumption.
  - unfold getEncode in Ecall.
    destruct (negb _ || negb _); [discriminate |].
    destruct (isValidNumber (getProp (query req) "latitude")) eqn:V1;
      [| discriminate].
    destruct (isValidNumber (getProp (query req) "longitude")) eqn:V2;
      [| discriminate].
    inversion Ecall; subst.
    split; apply isValidNumber_finite; assumption.
Qed.

(** C6 (failure kinds end to end), the claim as amended.  Whatever error the
    core throws, the encode routes answer it with status 400 and the code
    ENCODING_FAILED, the decode routes with status 400 and the code
    DECODING_FAILED; the message of the error is the [error] field of the
    answer, unchanged. *)
Theorem core_failure_codes (core : CoreApi) (req : Request) (err : JsError) :
  (forall lat lon reply,
      postEncode req = CallGetDigiPin lat lon reply ->
      getDigiPin core lat lon = Threw err ->
      run core (postEncode req) = badRequest (message err) "ENCODING_FAILED") /\
  (forall lat lon reply,
      getEncode req = CallGetDigiPin lat lon reply ->
      getDigiPin core lat lon = Threw err ->
      run core (getEncode req) = badRequest (message err) "ENCODING_FAILED") /\
  (forall s reply,
      postDecode req = CallGetLatLngFromDigiPin s reply ->
      getLatLngFromDigiPin core s = Threw err ->
      run core (postDecode req) = badRequest (message err) "DECODING_FAILED") /\
  (forall s reply,
      getDecode req = CallGetLatLngFromDigiPin s reply ->
      getLatLngFromDigiPin core s = Threw err ->
      run core (getDecode req) = badRequest (message err) "DECODING_FAILED") /\
  (forall msg code,
      statusCode (badRequest msg code) = 400%nat /\
      codeOf (badRequest msg code) = VString code /\
      errorOf (badRequest msg code) = VString msg).
Proof.
  split; [| split; [| split; [| split]]].
  - intros lat lon reply Ecall Hthrow.
    destruct (postEncode_cases req) as [(r & Er & _) | Ec].
    + rewrite Er in Ecall. discriminate.
    + rewrite Ec in Ecall. inversion Ecall; subst.
      rewrite Ec. simpl. rewrite Hthrow. reflexivity.
  - intros lat lon reply Ecall Hthrow.
    destruct (getEncode_cases req) as [(r & Er & _) | Ec].
    + rewrite Er in Ecall. discriminate.
    + rewrite Ec in Ecall. inversion Ecall; subst.
      rewrite Ec. simpl. rewrite Hthrow. reflexivity.
  - intros s reply Ecall Hthrow.
    destruct (postDecode_cases req) as [(r & Er & _) | (s' & _ & Ec)].
    + rewrite Er in Ecall. discriminate.
    + rewrite Ec in Ecall. inversion Ecall; subst.
      rewrite Ec. simpl. rewrite Hthrow. reflexivity.
  - intros s reply Ecall Hthrow.
    destruct (getDecode_cases req) as [(r & Er & _) | (s' & _ & Ec)].
    + rewrite Er in Ecall. discriminate.
    + rewrite Ec in Ecall. inversion Ecall; subst.
      rewrite Ec. simpl. rewrite Hthrow. reflexivity.
  - intros msg code. repeat split.
Qed.

Lemma core_failure_codes_witness :
  postDecode (sampleDecodeBody (VString "39J-438-TJ"))
  = CallGetLatLngFromDigiPin "39J-438-TJ" decodeReply /\
  getLatLngFromDigiPin (specCore digipin) "39J-438-TJ"
  = Threw (thrown "InvalidCodeLength") /\
  run (specCore digipin) (postDecode (sampleDecodeBody (VString "39J-438-TJ")))
  = badRequest "InvalidCodeLength" "DECODING_FAILED".
Proof.
  assert (H1 : postDecode (sampleDecodeBody (VString "39J-438-TJ"))
               = CallGetLatLngFromDigiPin "39J-438-TJ" decodeReply)
    by reflexivity.
  assert (H2 : getLatLngFromDigiPin (specCore digipin) "39J-438-TJ"
               = Threw (thrown "InvalidCodeLength")) by reflexivity.
  split; [exact H1 |]. split; [exact H2 |].
  exact (proj1 (proj2 (proj2 (core_failure_codes
                                (specCore digipin)
                                (sampleDecodeBody (VString "39J-438-TJ"))
                                (thrown "InvalidCodeLength"))))
               "39J-438-TJ" decodeReply H1 H2).
Defined.

(** C6 as stated fails: two requests on which the core fails with two
    distinct kinds get the same code. *)
Lemma core_failure_codes_counterexample :
  decode digipin "39J-438-TJ" = Fails InvalidCodeLength /\
  decode digipin "39J-438-TJCA" = Fails InvalidCodeSymbol /\
  InvalidCodeLength <> InvalidCodeSymbol /\
  codeOf (run (specCore digipin)
              (postDecode (sampleDecodeBody (VString "39J-438-TJ"))))
  = VString "DECODING_FAILED" /\
  codeOf (run (specCore digipin)
              (postDecode (sampleDecodeBody (VString "39J-438-TJCA"))))
  = VString "DECODING_FAILED".
Proof.
  split; [vm_compute; reflexivity |].
  split; [vm_compute; reflexivity |].
  split; [discriminate |].
  split; vm_compute; reflexivity.
Qed.

(** ** The routes at work *)

Example post_encode_new_delhi :
  run (specCore digipin)
      (postEncode (sampleBody (VNumber (Finite 28.6139))
                              (VString "77.2090")))
  = {| statusCode := 200;
       json := VObject [("digipin", VString "39J-438-TJC7")] |}.
Proof. vm_compute. reflexivity. Qed.

Example post_encode_out_of_range :
  run (specCore digipin)
      (postEncode (sampleBody (VNumber (Finite 2.4)) (VString "77.2090")))
  = badRequest "CoordinateOutOfRange: latitude below the minimum"
               "ENCODING_FAILED".
Proof. vm_compute. reflexivity. Qed.

Example get_decode_blank :
  getDecode (sampleDecodeQuery (VString "   ")) = Respond invalidDigipin.
Proof. reflexivity. Qed.

Example post_decode_number :
  postDecode (sampleDecodeBody (VNumber (Finite 12)))
  = Respond (invalidDigipinType (VNumber (Finite 12))).
Proof. reflexivity. Qed.

Example valid_json_post_reaches_router :
  sampleHandle
    {| method := "POST"; path := "/api/digipin/decode";
       headers := [("content-type", "application/json; charset=utf-8")];
       body := [("digipin", VString "39J-438-TJ")]; query := [] |}
  = (["validateJsonContentType"; "cors"; "express.json"; "morgan";
      "digipinRoutes"],
     Sent (badRequest "InvalidCodeLength" "DECODING_FAILED")).
Proof. vm_compute. reflexivity. Qed.

End AdapterFacts.

(* ===================================================================== *)
(** * Further properties of the adapter                                    *)
(* ===================================================================== *)

Module AdapterExtras.
Import Core Js Routes App Service Samples Catalogue AdapterFacts.

Open Scope string_scope.

(** ** The two validation helpers *)

Lemma parseFloat_blank (s : string) :
  isBlank s = true -> parseFloat s = NaN.
Proof.
  unfold isBlank, parseFloat, trimStart. intros H.
  apply skipWhiteSpace_nil in H. rewrite H. reflexivity.
Qed.

(** X1.  [isValidNumber] accepts exactly the finite numbers and the strings
    that [parseFloat] reads as a finite number: [undefined], [null],
    booleans, [NaN], the infinities, arrays and objects are all refused. *)
Theorem isValidNumber_iff (v : JsValue) :
  isValidNumber v = true <->
  (exists q, v = VNumber (Finite q)) \/
  (exists s, v = VString s /\ isFinite (parseFloat s) = true).
Proof.
  split.
  - destruct v as [| | b | n | s | items | fields]; simpl; try discriminate.
    + destruct n; simpl; try discriminate. intros _. left. eexists. reflexivity.
    + intros H. right. exists s. split; [reflexivity |].
      rewrite <- isValidNumber_string. exact H.
  - intros [[q E] | (s & E & F)]; subst v.
    + reflexivity.
    + rewrite isValidNumber_string. exact F.
Qed.

Lemma isValidNumber_iff_witness :
  isFinite (parseFloat "  12.5 degrees") = true /\
  isValidNumber (VString "  12.5 degrees") = true.
Proof.
  assert (F : isFinite (parseFloat "  12.5 degrees") = true) by reflexivity.
  split; [exact F |].
  apply (proj2 (isValidNumber_iff (VString "  12.5 degrees"))).
  right. exists "  12.5 degrees". split; [reflexivity | exact F].
Defined.

(** X2.  A string of white space only is not a valid number.  POST /encode
    answers such a latitude INVALID_LATITUDE, not MISSING_LATITUDE; GET
    /encode does the same unless the string is empty. *)
Theorem blank_is_not_a_number (req : Request) (s : string) :
  isBlank s = true ->
  isValidNumber (VString s) = false /\
  (getProp (body req) "latitude" = VString s ->
   isNullish (getProp (body req) "longitude") = false ->
   postEncode req
   = Respond (badRequest "Invalid latitude: must be a valid number"
                         "INVALID_LATITUDE")) /\
  (getProp (query req) "latitude" = VString s ->
   s <> "" ->
   truthy (getProp (query req) "longitude") = true ->
   getEncode req
   = Respond (badRequest "Invalid latitude: must be a valid number"
                         "INVALID_LATITUDE")).
Proof.
  intros B.
  assert (V : isValidNumber (VString s) = false).
  { rewrite isValidNumber_string, (parseFloat_blank _ B). reflexivity. }
  split; [exact V |]. split.
  - intros E N. unfold postEncode. rewrite E, N. cbn [isNullish].
    rewrite V. reflexivity.
  - intros E Hne T. unfold getEncode. rewrite E, T.
    assert (Ts : truthy (VString s) = true)
      by (destruct s; [congruence | reflexivity]).
    rewrite Ts, V. reflexivity.
Qed.

Lemma blank_is_not_a_number_witness :
  isBlank "   " = true /\
  postEncode (sampleBody (VString "   ") (VNumber (Finite 77.2090)))
  = Respond (badRequest "Invalid latitude: must be a valid number"
                        "INVALID_LATITUDE").
Proof.
  assert (B : isBlank "   " = true) by reflexivity.
  split; [exact B |].
  exact (proj1 (proj2 (blank_is_not_a_number
                         (sampleBody (VString "   ")
                                     (VNumber (Finite 77.2090))) "   " B))
               eq_refl eq_refl).
Defined.

Lemma forallb_false_exists (A : Type) (f : A -> bool) (l : list A) :
  forallb f l = false <-> exists x, In x l /\ f x = false.
Proof.
  induction l as [| a l IH]; simpl.
  - split; [discriminate | intros (x & [] & _)].
  - destruct (f a) eqn:Fa; simpl.
    + rewrite IH. split.
      * intros (x & Hx & Fx). exists x. split; [right; exact Hx | exact Fx].
      * intros (x & [E | Hx] & Fx).
        -- subst x. congruence.
        -- exists x. split; assumption.
    + split; [| reflexivity]. intros _. exists a. split; [left; reflexivity | exact Fa].
Qed.

(** X3.  [isValidString] accepts exactly the strings that hold a character
    that is not white space: every other value, the empty string and the
    strings of spaces, tabs and line ends are refused. *)
Theorem isValidString_iff (v : JsValue) :
  isValidString v = true <->
  exists s, v = VString s /\
            exists c, In c (list_ascii_of_string s) /\ isWhiteSpace c = false.
Proof.
  split.
  - destruct v as [| | b | n | s | items | fields];
      try (simpl; discriminate).
    rewrite isValidString_blank. intros H.
    exists s. split; [reflexivity |].
    apply forallb_false_exists. unfold isBlank in H.
    destruct (forallb isWhiteSpace (list_ascii_of_string s));
      [discriminate | reflexivity].
  - intros (s & E & Hc). subst v. rewrite isValidString_blank.
    apply forallb_false_exists in Hc. unfold isBlank. rewrite Hc. reflexivity.
Qed.

Lemma isValidString_iff_witness :
  isWhiteSpace "9"%char = false /\ isValidString (VString "  39J ") = true.
Proof.
  assert (W : isWhiteSpace "9"%char = false) by reflexivity.
  split; [exact W |].
  apply (proj2 (isValidString_iff (VString "  39J "))).
  exists "  39J ". split; [reflexivity |].
  exists "9"%char. split; [simpl; tauto | exact W].
Defined.

(** ** What reaches the core *)

(** X4.  When an encode route calls [getDigiPin], both arguments are finite
    numbers, never [NaN] nor an infinity, and the answer is built by the
    route's [try]/[catch]. *)
Theorem core_receives_finite_numbers (req : Request) (lat lon : JsNumber)
        (reply : CoreResult string -> Response) :
  postEncode req = CallGetDigiPin lat lon reply \/
  getEncode req = CallGetDigiPin lat lon reply ->
  isFinite lat = true /\ isFinite lon = true /\ reply = encodeReply.
Proof.
  intros [E | E].
  - destruct (getDigiPin_called_on_finite req (or_introl eq_refl) E)
      as [F1 F2].
    split; [exact F1 |]. split; [exact F2 |].
    destruct (postEncode_cases req) as [(r & Er & _) | Ec];
      rewrite E in *; [discriminate |].
    inversion Ec. reflexivity.
  - destruct (getDigiPin_called_on_finite req (or_intror eq_refl) E)
      as [F1 F2].
    split; [exact F1 |]. split; [exact F2 |].
    destruct (getEncode_cases req) as [(r & Er & _) | Ec];
      rewrite E in *; [discriminate |].
    inversion Ec. reflexivity.
Qed.

Lemma core_receives_finite_numbers_witness :
  postEncode (sampleBody (VString "28.6139") (VNumber (Finite 77.2090)))
  = CallGetDigiPin (parseFloat "28.6139") (Finite 77.2090) encodeReply /\
  isFinite (parseFloat "28.6139") = true /\
  isFinite (Finite 77.2090) = true /\
  encodeReply = encodeReply.
Proof.
  assert (E : postEncode (sampleBody (VString "28.6139")
                                     (VNumber (Finite 77.2090)))
              = CallGetDigiPin (parseFloat "28.6139") (Finite 77.2090)
                               encodeReply) by reflexivity.
  split; [exact E |].
  exact (core_receives_finite_numbers
           (sampleBody (VString "28.6139") (VNumber (Finite 77.2090)))
           (or_introl E)).
Defined.

(** X5.  When a decode route calls [getLatLngFromDigiPin], the argument is
    the [digipin] field itself, a string that is not blank, white space
    around it included; the answer is built by the route's [try]/[catch]. *)
Theorem decoder_called_on_field (req : Request) (s : string)
        (reply : CoreResult JsValue -> Response) :
  (postDecode req = CallGetLatLngFromDigiPin s reply ->
   getProp (body req) "digipin" = VString s /\ isBlank s = false /\
   reply = decodeReply) /\
  (getDecode req = CallGetLatLngFromDigiPin s reply ->
   getProp (query req) "digipin" = VString s /\ isBlank s = false /\
   reply = decodeReply).
Proof.
  split.
  - unfold postDecode.
    destruct (getProp (body req) "digipin") as [| | b | n | s0 | l | l];
      cbn [isNullish]; try discriminate.
    rewrite isValidString_blank, negb_involutive.
    destruct (isBlank s0) eqn:B; [discriminate |].
    intros H. inversion H; subst.
    split; [reflexivity | split; [exact B | reflexivity]].
  - unfold getDecode.
    destruct (getProp (query req) "digipin") as [| | b | n | s0 | l | l];
      try (destruct (negb _); discriminate).
    destruct (negb (truthy (VString s0))); [discriminate |].
    rewrite isValidString_blank, negb_involutive.
    destruct (isBlank s0) eqn:B; [discriminate |].
    intros H. inversion H; subst.
    split; [reflexivity | split; [exact B | reflexivity]].
Qed.

Lemma decoder_called_on_field_witness :
  postDecode (sampleDecodeBody (VString " 39J-438-TJC7 "))
  = CallGetLatLngFromDigiPin " 39J-438-TJC7 " decodeReply /\
  getProp (body (sampleDecodeBody (VString " 39J-438-TJC7 "))) "digipin"
  = VString " 39J-438-TJC7 " /\
  isBlank " 39J-438-TJC7 " = false /\
  decodeReply = decodeReply.
Proof.
  assert (E : postDecode (sampleDecodeBody (VString " 39J-438-TJC7 "))
              = CallGetLatLngFromDigiPin " 39J-438-TJC7 " decodeReply)
    by reflexivity.
  split; [exact E |].
  exact (proj1 (decoder_called_on_field
                  (sampleDecodeBody (VString " 39J-438-TJC7 "))
                  " 39J-438-TJC7 " decodeReply) E).
Defined.

(** X6.  Each route calls its own function of the core only: the encode
    routes never call [getLatLngFromDigiPin], the decode routes never call
    [getDigiPin]. *)
Theorem routes_call_their_own_function (req : Request) :
  (forall s reply, postEncode req <> CallGetLatLngFromDigiPin s reply) /\
  (forall s reply, getEncode req <> CallGetLatLngFromDigiPin s reply) /\
  (forall lat lon reply, postDecode req <> CallGetDigiPin lat lon reply) /\
  (forall lat lon reply, getDecode req <> CallGetDigiPin lat lon reply).
Proof.
  split; [| split; [| split]].
  - intros s reply H.
    destruct (postEncode_cases req) as [(r & E & _) | E];
      rewrite E in H; discriminate.
  - intros s reply H.
    destruct (getEncode_cases req) as [(r & E & _) | E];
      rewrite E in H; discriminate.
  - intros lat lon reply H.
    destruct (postDecode_cases req) as [(r & E & _) | (s & _ & E)];
      rewrite E in H; discriminate.
  - intros lat lon reply H.
    destruct (getDecode_cases req) as [(r & E & _) | (s & _ & E)];
      rewrite E in H; discriminate.
Qed.

(** ** The answers of the routes *)

Ltac refusal :=
  left; eexists; eexists; split; [reflexivity | simpl; tauto].

Lemma postEncode_shape (req : Request) :
  (exists e c, postEncode req = Respond (badRequest e c) /\ In c routeCodes) \/
  (exists lat lon, postEncode req = CallGetDigiPin lat lon encodeReply).
Proof.
  unfold postEncode.
  destruct (isNullish _); [refusal |].
  destruct (isNullish _); [refusal |].
  destruct (negb _); [refusal |].
  destruct (negb _); [refusal |].
  right. eexists. eexists. reflexivity.
Qed.

Lemma getEncode_shape (req : Request) :
  (exists e c, getEncode req = Respond (badRequest e c) /\ In c routeCodes) \/
  (exists lat lon, getEncode req = CallGetDigiPin lat lon encodeReply).
Proof.
  unfold getEncode.
  destruct (negb _ || negb _); [refusal |].
  destruct (negb _); [refusal |].
  destruct (negb _); [refusal |].
  right. eexists. eexists. reflexivity.
Qed.

Lemma postDecode_shape (req : Request) :
  (exists e c, postDecode req = Respond (badRequest e c) /\ In c routeCodes) \/
  (exists v, postDecode req = Respond (invalidDigipinType v)) \/
  (exists s, postDecode req = CallGetLatLngFromDigiPin s decodeReply).
Proof.
  unfold postDecode.
  destruct (getProp (body req) "digipin") as [| | b | n | s | l | l];
    cbn [isNullish];
    try refusal; try (right; left; eexists; reflexivity).
  destruct (negb _); [refusal |].
  right. right. eexists. reflexivity.
Qed.

Lemma getDecode_shape (req : Request) :
  (exists e c, getDecode req = Respond (badRequest e c) /\ In c routeCodes) \/
  (exists v, getDecode req = Respond (invalidDigipinType v)) \/
  (exists s, getDecode req = CallGetLatLngFromDigiPin s decodeReply).
Proof.
  unfold getDecode.
  destruct (getProp (query req) "digipin") as [| | b | n | s | l | l];
    (destruct (negb (truthy _)); [refusal |]);
    try (right; left; eexists; reflexivity).
  destruct (negb _); [refusal |].
  right. right. eexists. reflexivity.
Qed.

(** X7.  Against a core whose calls return a JSON value or throw an [Error]
    with a string message, which is what [CoreApi] describes, a route
    answers 200 or 400 and nothing else: 200 exactly when it called the core
    and the call returned; otherwise 400 with an [error] string and a [code]
    that is one of the ten codes of the router.  A core that throws
    something else than an [Error] is outside this statement. *)
Theorem route_answers (core : CoreApi) (req : Request) (h : Handler) :
  In h (handlers req) ->
  (coreReturned core h = true /\ statusCode (run core h) = 200%nat) \/
  (coreReturned core h = false /\ statusCode (run core h) = 400%nat /\
   exists e c, errorOf (run core h) = VString e /\
               codeOf (run core h) = VString c /\ In c routeCodes).
Proof.
  assert (Hbad : forall e c, In c routeCodes ->
            coreReturned core (Respond (badRequest e c)) = false /\
            statusCode (run core (Respond (badRequest e c))) = 400%nat /\
            exists e' c', errorOf (run core (Respond (badRequest e c)))
                          = VString e' /\
                          codeOf (run core (Respond (badRequest e c)))
                          = VString c' /\ In c' routeCodes).
  { intros e c Hc. split; [reflexivity |]. split; [reflexivity |].
    exists e, c. repeat split. exact Hc. }
  assert (Htype : forall v,
            coreReturned core (Respond (invalidDigipinType v)) = false /\
            statusCode (run core (Respond (invalidDigipinType v))) = 400%nat /\
            exists e' c', errorOf (run core (Respond (invalidDigipinType v)))
                          = VString e' /\
                          codeOf (run core (Respond (invalidDigipinType v)))
                          = VString c' /\ In c' routeCodes).
  { intros v. split; [reflexivity |]. split; [reflexivity |].
    eexists. eexists. split; [reflexivity |]. split; [reflexivity |].
    simpl. tauto. }
  assert (Henc : forall lat lon,
            (coreReturned core (CallGetDigiPin lat lon encodeReply) = true /\
             statusCode (run core (CallGetDigiPin lat lon encodeReply))
             = 200%nat) \/
            (coreReturned core (CallGetDigiPin lat lon encodeReply) = false /\
             statusCode (run core (CallGetDigiPin lat lon encodeReply))
             = 400%nat /\
             exists e c,
               errorOf (run core (CallGetDigiPin lat lon encodeReply))
               = VString e /\
               codeOf (run core (CallGetDigiPin lat lon encodeReply))
               = VString c /\ In c routeCodes)).
  { intros lat lon. simpl. destruct (getDigiPin core lat lon) as [code | err].
    - left. split; reflexivity.
    - right. split; [reflexivity |]. split; [reflexivity |].
      eexists. eexists. split; [reflexivity |]. split; [reflexivity |].
      simpl. tauto. }
  assert (Hdec : forall s,
            (coreReturned core (CallGetLatLngFromDigiPin s decodeReply) = true /\
             statusCode (run core (CallGetLatLngFromDigiPin s decodeReply))
             = 200%nat) \/
            (coreReturned core (CallGetLatLngFromDigiPin s decodeReply)
             = false /\
             statusCode (run core (CallGetLatLngFromDigiPin s decodeReply))
             = 400%nat /\
             exists e c,
               errorOf (run core (CallGetLatLngFromDigiPin s decodeReply))
               = VString e /\
               codeOf (run core (CallGetLatLngFromDigiPin s decodeReply))
               = VString c /\ In c routeCodes)).
  { intros s. simpl.
    destruct (getLatLngFromDigiPin core s) as [coords | err].
    - left. split; reflexivity.
    - right. split; [reflexivity |]. split; [reflexivity |].
      eexists. eexists. split; [reflexivity |]. split; [reflexivity |].
      simpl. tauto. }
  intros [E | [E | [E | [E | []]]]]; subst h.
  - destruct (postEncode_shape req) as [(e & c & E & Hc) | (lat & lon & E)];
      rewrite E; [right; apply Hbad; exact Hc | apply Henc].
  - destruct (postDecode_shape req)
      as [(e & c & E & Hc) | [(v & E) | (s & E)]]; rewrite E;
      [right; apply Hbad; exact Hc | right; apply Htype | apply Hdec].
  - destruct (getEncode_shape req) as [(e & c & E & Hc) | (lat & lon & E)];
      rewrite E; [right; apply Hbad; exact Hc | apply Henc].
  - destruct (getDecode_shape req)
      as [(e & c & E & Hc) | [(v & E) | (s & E)]]; rewrite E;
      [right; apply Hbad; exact Hc | right; apply Htype | apply Hdec].
Qed.

Lemma route_answers_witness :
  In (postDecode (sampleDecodeBody (VString "39J-438-TJ")))
     (handlers (sampleDecodeBody (VString "39J-438-TJ"))) /\
  statusCode (run (specCore digipin)
                  (postDecode (sampleDecodeBody (VString "39J-438-TJ"))))
  = 400%nat.
Proof.
  assert (Hin : In (postDecode (sampleDecodeBody (VString "39J-438-TJ")))
                   (handlers (sampleDecodeBody (VString "39J-438-TJ"))))
    by (simpl; tauto).
  split; [exact Hin |].
  destruct (route_answers (specCore digipin) Hin) as [[C _] | [_ [S _]]].
  - discriminate C.
  - exact S.
Defined.

Lemma truthy_not_nullish (v : JsValue) :
  truthy v = true -> isNullish v = false.
Proof. destruct v; simpl; try discriminate; reflexivity. Qed.

(** X8.  On values that are truthy the POST and the GET route do the same:
    with the same latitude and longitude in the body and in the query, both
    truthy, POST /encode and GET /encode behave alike, and so do POST /decode
    and GET /decode on the same truthy digipin.  The two differ only in how
    they report a missing value. *)
Theorem post_and_get_agree (req : Request) :
  (getProp (body req) "latitude" = getProp (query req) "latitude" ->
   getProp (body req) "longitude" = getProp (query req) "longitude" ->
   truthy (getProp (query req) "latitude") = true ->
   truthy (getProp (query req) "longitude") = true ->
   postEncode req = getEncode req) /\
  (getProp (body req) "digipin" = getProp (query req) "digipin" ->
   truthy (getProp (query req) "digipin") = true ->
   postDecode req = getDecode req).
Proof.
  split.
  - intros E1 E2 T1 T2. unfold postEncode, getEncode.
    rewrite E1, E2, T1, T2.
    rewrite (truthy_not_nullish _ T1), (truthy_not_nullish _ T2).
    reflexivity.
  - intros E T. unfold postDecode, getDecode.
    rewrite E, T, (truthy_not_nullish _ T). reflexivity.
Qed.
Lemma post_and_get_agree_witness :
  truthy (getProp (query (sampleBoth (VNumber (Finite 12)))) "digipin") = true /\
  postDecode (sampleBoth (VNumber (Finite 12)))
  = getDecode (sampleBoth (VNumber (Finite 12))).
Proof.
  assert (T : truthy (getProp (query (sampleBoth (VNumber (Finite 12))))
                              "digipin") = true) by reflexivity.
  split; [exact T |].
  exact (proj2 (post_and_get_agree (sampleBoth (VNumber (Finite 12))))
               eq_refl T).
Defined.

(** ** The content type check *)

Lemma prefix_app (sub post : string) : String.prefix sub (sub ++ post) = true.
Proof.
  induction sub as [| c sub IH]; simpl.
  - destruct post; reflexivity.
  - destruct (ascii_dec c c) as [_ | N]; [exact IH | contradiction].
Qed.

Lemma includes_app (pre sub post : string) :
  includes (pre ++ sub ++ post) sub = true.
Proof.
  induction pre as [| c pre IH]; simpl.
  - pose proof (prefix_app sub post) as P.
    destruct (sub ++ post); cbn [includes]; rewrite P; reflexivity.
  - rewrite IH. apply orb_true_r.
Qed.

Lemma validate_cases (req : Request) :
  validateJsonContentType req = Next req \/
  validateJsonContentType req
  = Ended (unsupportedMediaType (getHeader (headers req) "content-type")).
Proof.
  unfold validateJsonContentType.
  destruct (_ || _ || _); [| left; reflexivity].
  destruct (getHeader (headers req) "content-type") as [ct |];
    [| right; reflexivity].
  destruct (negb _ || negb _); [right | left]; reflexivity.
Qed.

(** X9.  The content type check answers a request itself exactly when the
    method is POST, PUT or PATCH and the Content-Type header is absent or
    does not include "application/json"; its answer is then the 415 one.
    Every other request, whatever its method, is passed on unchanged, and the
    check never raises an error. *)
Theorem content_type_rejection_iff (req : Request) :
  ((exists r, validateJsonContentType req = Ended r) <->
   (method req = "POST" \/ method req = "PUT" \/ method req = "PATCH") /\
   (getHeader (headers req) "content-type" = None \/
    exists ct, getHeader (headers req) "content-type" = Some ct /\
               includes ct "application/json" = false)) /\
  (forall r, validateJsonContentType req = Ended r ->
             statusCode r = 415%nat /\
             codeOf r = VString "INVALID_CONTENT_TYPE") /\
  ((forall r, validateJsonContentType req <> Ended r) ->
   validateJsonContentType req = Next req).
Proof.
  split; [| split].
  - split.
    + intros (r & H). unfold validateJsonContentType in H.
      destruct (String.eqb_spec (method req) "POST") as [E1 | N1].
      * split; [left; exact E1 |].
        simpl in H.
        destruct (getHeader (headers req) "content-type") as [ct |];
          [| left; reflexivity].
        right. exists ct. split; [reflexivity |].
        destruct (includes ct "application/json") eqn:I; [| reflexivity].
        destruct ct; [discriminate I |]. simpl in H. discriminate H.
      * destruct (String.eqb_spec (method req) "PUT") as [E2 | N2].
        -- split; [right; left; exact E2 |].
           simpl in H.
           destruct (getHeader (headers req) "content-type") as [ct |];
             [| left; reflexivity].
           right. exists ct. split; [reflexivity |].
           destruct (includes ct "application/json") eqn:I; [| reflexivity].
           destruct ct; [discriminate I |]. simpl in H. discriminate H.
        -- destruct (String.eqb_spec (method req) "PATCH") as [E3 | N3].
           ++ split; [right; right; exact E3 |].
              simpl in H.
              destruct (getHeader (headers req) "content-type") as [ct |];
                [| left; reflexivity].
              right. exists ct. split; [reflexivity |].
              destruct (includes ct "application/json") eqn:I;
                [| reflexivity].
              destruct ct; [discriminate I |]. simpl in H. discriminate H.
           ++ simpl in H. discriminate H.
    + intros [Hm Hct]. unfold validateJsonContentType.
      assert (Em : String.eqb (method req) "POST"
                   || String.eqb (method req) "PUT"
                   || String.eqb (method req) "PATCH" = true)
        by (destruct Hm as [E | [E | E]]; rewrite E; reflexivity).
      rewrite Em. destruct Hct as [E | (ct & E & I)]; rewrite E.
      * eexists. reflexivity.
      * rewrite I, orb_true_r. eexists. reflexivity.
  - intros r H. destruct (validate_cases req) as [E | E];
      rewrite E in H; [discriminate |].
    inversion H; subst. split; reflexivity.
  - intros H. destruct (validate_cases req) as [E | E]; [exact E |].
    exfalso. exact (H _ E).
Qed.

Lemma content_type_rejection_iff_witness :
  method samplePut = "PUT" /\
  includes "text/plain" "application/json" = false /\
  exists r, validateJsonContentType samplePut = Ended r.
Proof.
  assert (Hm : method samplePut = "PUT") by reflexivity.
  assert (Hi : includes "text/plain" "application/json" = false)
    by reflexivity.
  split; [exact Hm |]. split; [exact Hi |].
  apply (proj2 (proj1 (content_type_rejection_iff samplePut))).
  split.
  - right. left. exact Hm.
  - right. exists "text/plain". split; [reflexivity | exact Hi].
Defined.

Lemma prefix_split (sub s : string) :
  String.prefix sub s = true -> exists post, s = sub ++ post.
Proof.
  revert s. induction sub as [| c sub IH]; intros s H.
  - exists s. reflexivity.
  - destruct s as [| d s]; simpl in H; [discriminate |].
    destruct (ascii_dec c d) as [E | N]; [| discriminate].
    subst d. destruct (IH s H) as [post Hp].
    exists post. simpl. rewrite <- Hp. reflexivity.
Qed.

Lemma includes_split (s sub : string) :
  includes s sub = true -> exists pre post, s = pre ++ sub ++ post.
Proof.
  induction s as [| c s IH]; cbn [includes]; intros H.
  - rewrite orb_false_r in H. destruct (prefix_split _ _ H) as [post Hp].
    exists "", post. exact Hp.
  - apply orb_true_iff in H. destruct H as [H | H].
    + destruct (prefix_split _ _ H) as [post Hp]. exists "", post. exact Hp.
    + destruct (IH H) as (pre & post & Hp).
      exists (String c pre), post. simpl. rewrite <- Hp. reflexivity.
Qed.

(** X10.  A POST, PUT or PATCH request passes the content type check exactly
    when "application/json" occurs somewhere in its Content-Type header, as
    it is spelled: a charset parameter after it or any text before it makes
    no difference.  The request is passed on unchanged. *)
Theorem content_type_accepted_iff (req : Request) :
  method req = "POST" \/ method req = "PUT" \/ method req = "PATCH" ->
  (validateJsonContentType req = Next req <->
   exists pre post,
     getHeader (headers req) "content-type"
     = Some (pre ++ "application/json" ++ post)).
Proof.
  intros Hm.
  assert (Em : String.eqb (method req) "POST" || String.eqb (method req) "PUT"
               || String.eqb (method req) "PATCH" = true)
    by (destruct Hm as [E | [E | E]]; rewrite E; reflexivity).
  unfold validateJsonContentType. rewrite Em. split.
  - destruct (getHeader (headers req) "content-type") as [ct |];
      [| discriminate].
    destruct (includes ct "application/json") eqn:I.
    + intros _. destruct (includes_split _ _ I) as (pre & post & E).
      exists pre, post. rewrite E. reflexivity.
    + rewrite orb_true_r. discriminate.
  - intros (pre & post & E). rewrite E.
    rewrite includes_app.
    assert (T : truthy (VString (pre ++ "application/json" ++ post)) = true)
      by (destruct pre; reflexivity).
    rewrite T. reflexivity.
Qed.

Lemma content_type_accepted_iff_witness :
  method (sampleJsonPost "/api/digipin/encode" []) = "POST" /\
  validateJsonContentType (sampleJsonPost "/api/digipin/encode" [])
  = Next (sampleJsonPost "/api/digipin/encode" []).
Proof.
  assert (Hm : method (sampleJsonPost "/api/digipin/encode" []) = "POST")
    by reflexivity.
  split; [exact Hm |].
  apply (proj2 (content_type_accepted_iff
                  (sampleJsonPost "/api/digipin/encode" [])
                  (or_introl Hm))).
  exists "", "; charset=utf-8". reflexivity.
Defined.

(** ** The chain of the application *)

Lemma validate_setPath (req : Request) (p : string) :
  validateJsonContentType req = Next req ->
  validateJsonContentType (setPath req p) = Next (setPath req p).
Proof.
  unfold validateJsonContentType. cbn [setPath method headers].
  destruct (_ || _ || _); [| reflexivity].
  destruct (getHeader (headers req) "content-type") as [ct |];
    [| discriminate].
  destruct (negb _ || negb _); [discriminate | reflexivity].
Qed.

Lemma run_use_next (mountPath name : string) (m : Middleware)
      (rest : list Layer) (req : Request) (inner : string) (r' : Request) :
  below mountPath (path req) = Some inner ->
  m (setPath req inner) = Next r' ->
  runLayers (Use mountPath name m :: rest) None req
  = (let (ran, out) := runLayers rest None (setPath r' (path req)) in
     (name :: ran, out)).
Proof. intros Hb Hm. cbn [runLayers]. rewrite Hb, Hm. reflexivity. Qed.

Lemma run_use_ended (mountPath name : string) (m : Middleware)
      (rest : list Layer) (req : Request) (inner : string) (r : Response) :
  below mountPath (path req) = Some inner ->
  m (setPath req inner) = Ended r ->
  runLayers (Use mountPath name m :: rest) None req = ([name], Sent r).
Proof. intros Hb Hm. cbn [runLayers]. rewrite Hb, Hm. reflexivity. Qed.

Lemma run_use_elsewhere (mountPath name : string) (m : Middleware)
      (rest : list Layer) (req : Request) :
  below mountPath (path req) = None ->
  runLayers (Use mountPath name m :: rest) None req
  = runLayers rest None req.
Proof. intros Hb. cbn [runLayers]. rewrite Hb. reflexivity. Qed.

Lemma run_error_handler_idle (name : string) (m : ErrorMiddleware)
      (rest : list Layer) (req : Request) :
  runLayers (UseError name m :: rest) None req = runLayers rest None req.
Proof. reflexivity. Qed.

Section Chain.

Variables cors jsonParser morgan swagger : Middleware.
Variable core : CoreApi.

(** X11.  When the body parser fails on a body that is not JSON (a
    [SyntaxError] with status 400 and a [body] property), the application
    answers 400 INVALID_JSON_SYNTAX with the parser's message; the logger,
    the documentation pages and the router do not run. *)
Theorem malformed_json_answer (req : Request) (err : JsError) :
  validateJsonContentType req = Next req ->
  (forall r, exists r', cors r = Next r') ->
  (forall r, exists r', jsonParser r = NextError err r') ->
  isSyntaxError err = true -> status err = Some 400%nat ->
  hasBody err = true ->
  handle cors jsonParser morgan swagger core req
  = (["validateJsonContentType"; "cors"; "express.json"; "jsonErrorHandler"],
     Sent (invalidJsonSyntax err)).
Proof.
  intros Hv Hcors Hjson H1 H2 H3.
  unfold handle, app. cbn [runLayers].
  change (below "/" (path req)) with (Some (path req)). cbv iota.
  rewrite (validate_setPath _ Hv).
  set (r1 := setPath (setPath req (path req)) (path req)).
  change (below "/" (path r1)) with (Some (path r1)). cbv iota.
  destruct (Hcors (setPath r1 (path r1))) as [r2 E2]. rewrite E2.
  set (r2' := setPath r2 (path r1)).
  change (below "/" (path r2')) with (Some (path r2')). cbv iota.
  destruct (Hjson (setPath r2' (path r2'))) as [r3 E3]. rewrite E3.
  unfold jsonErrorHandler. rewrite H1, H2, H3. reflexivity.
Qed.

(** X12.  Any other error of the body parser is passed on by the error
    handler with [next(err)]: no later layer runs, the router included, and
    the error is left to the default handler of Express. *)
Theorem other_errors_pass (req : Request) (err : JsError) :
  validateJsonContentType req = Next req ->
  (forall r, exists r', cors r = Next r') ->
  (forall r, exists r', jsonParser r = NextError err r') ->
  isSyntaxError err = false \/ status err <> Some 400%nat \/
  hasBody err = false ->
  handle cors jsonParser morgan swagger core req
  = (["validateJsonContentType"; "cors"; "express.json"; "jsonErrorHandler"],
     Unhandled err).
Proof.
  intros Hv Hcors Hjson Hnot.
  assert (Hcond : isSyntaxError err && optNatEqb (status err) (Some 400%nat)
                  && hasBody err = false).
  { destruct Hnot as [H | [H | H]].
    - rewrite H. reflexivity.
    - destruct (status err) as [n |]; simpl.
      + destruct (Nat.eqb_spec n 400) as [E | N].
        * exfalso. apply H. rewrite E. reflexivity.
        * rewrite andb_false_r. reflexivity.
      + rewrite andb_false_r. reflexivity.
    - rewrite H. apply andb_false_r. }
  unfold handle, app. cbn [runLayers].
  change (below "/" (path req)) with (Some (path req)). cbv iota.
  rewrite (validate_setPath _ Hv).
  set (r1 := setPath (setPath req (path req)) (path req)).
  change (below "/" (path r1)) with (Some (path r1)). cbv iota.
  destruct (Hcors (setPath r1 (path r1))) as [r2 E2]. rewrite E2.
  set (r2' := setPath r2 (path r1)).
  change (below "/" (path r2')) with (Some (path r2')). cbv iota.
  destruct (Hjson (setPath r2' (path r2'))) as [r3 E3]. rewrite E3.
  unfold jsonErrorHandler. rewrite Hcond. reflexivity.
Qed.

(** X13.  When the packages' middleware pass a request on untouched, a
    request for /api/digipin/encode or /api/digipin/decode that passes the
    content type check is answered by the handler the router picks for its
    method and the rest of its path, run against the core, after exactly the
    layers validateJsonContentType, cors, express.json, morgan and the
    router: the error handler and the documentation pages do not run. *)
Theorem dispatch_to_route (m sub : string) (hs : list (string * string))
        (b q : JsObject) (h : Handler) :
  (forall r, cors r = Next r) ->
  (forall r, jsonParser r = Next r) ->
  (forall r, morgan r = Next r) ->
  route (mkRequest m sub hs b q) = Some h ->
  validateJsonContentType (mkRequest m ("/api/digipin" ++ sub) hs b q)
  = Next (mkRequest m ("/api/digipin" ++ sub) hs b q) ->
  handle cors jsonParser morgan swagger core
         (mkRequest m ("/api/digipin" ++ sub) hs b q)
  = (["validateJsonContentType"; "cors"; "express.json"; "morgan";
      "digipinRoutes"],
     Sent (run core h)).
Proof.
  intros Hcors Hjson Hmorgan Hroute Hv.
  assert (Hsub : sub = "/encode" \/ sub = "/decode").
  { unfold route in Hroute. cbn [method path] in Hroute.
    destruct (String.eqb_spec sub "/encode") as [E | N1]; [left; exact E |].
    destruct (String.eqb_spec sub "/decode") as [E | N2]; [right; exact E |].
    rewrite !andb_false_r in Hroute. discriminate. }
  unfold handle, app.
  destruct Hsub as [E | E]; subst sub.
  - erewrite run_use_next; [| reflexivity | exact Hv].
    erewrite run_use_next; [| reflexivity | apply Hcors].
    erewrite run_use_next; [| reflexivity | apply Hjson].
    erewrite run_use_next; [| reflexivity | apply Hmorgan].
    rewrite run_error_handler_idle.
    rewrite run_use_elsewhere by reflexivity.
    erewrite run_use_ended;
      [reflexivity | reflexivity
       | unfold digipinRoutes;
         cbv beta iota delta [setPath method path headers body query];
         rewrite Hroute; reflexivity].
  - erewrite run_use_next; [| reflexivity | exact Hv].
    erewrite run_use_next; [| reflexivity | apply Hcors].
    erewrite run_use_next; [| reflexivity | apply Hjson].
    erewrite run_use_next; [| reflexivity | apply Hmorgan].
    rewrite run_error_handler_idle.
    rewrite run_use_elsewhere by reflexivity.
    erewrite run_use_ended;
      [reflexivity | reflexivity
       | unfold digipinRoutes;
         cbv beta iota delta [setPath method path headers body query];
         rewrite Hroute; reflexivity].
Qed.

End Chain.

Lemma malformed_json_answer_witness :
  validateJsonContentType (sampleJsonPost "/api/digipin/encode" [])
  = Next (sampleJsonPost "/api/digipin/encode" []) /\
  handle passThrough (failingParser sampleSyntaxError) passThrough passThrough
         (specCore digipin) (sampleJsonPost "/api/digipin/encode" [])
  = (["validateJsonContentType"; "cors"; "express.json"; "jsonErrorHandler"],
     Sent (invalidJsonSyntax sampleSyntaxError)).
Proof.
  assert (Hv : validateJsonContentType (sampleJsonPost "/api/digipin/encode" [])
               = Next (sampleJsonPost "/api/digipin/encode" []))
    by reflexivity.
  split; [exact Hv |].
  apply (@malformed_json_answer passThrough (failingParser sampleSyntaxError)
                                passThrough passThrough (specCore digipin)
                                _ sampleSyntaxError Hv).
  - intros r. exists r. reflexivity.
  - intros r. exists r. reflexivity.
  - reflexivity.
  - reflexivity.
  - reflexivity.
Defined.

Lemma other_errors_pass_witness :
  isSyntaxError sampleTooLarge = false /\
  handle passThrough (failingParser sampleTooLarge) passThrough passThrough
         (specCore digipin) (sampleJsonPost "/api/digipin/encode" [])
  = (["validateJsonContentType"; "cors"; "express.json"; "jsonErrorHandler"],
     Unhandled sampleTooLarge).
Proof.
  assert (Hs : isSyntaxError sampleTooLarge = false) by reflexivity.
  split; [exact Hs |].
  apply (@other_errors_pass passThrough (failingParser sampleTooLarge)
                            passThrough passThrough (specCore digipin)
                            (sampleJsonPost "/api/digipin/encode" [])
                            sampleTooLarge).
  - reflexivity.
  - intros r. exists r. reflexivity.
  - intros r. exists r. reflexivity.
  - left. exact Hs.
Defined.

Lemma dispatch_to_route_witness :
  route (mkRequest "GET" "/decode" [] [] [("digipin", VString "39J-438-TJC7")])
  = Some (getDecode (sampleGet "/decode"
                               [("digipin", VString "39J-438-TJC7")])) /\
  handle passThrough passThrough passThrough passThrough (specCore digipin)
         (sampleGet "/api/digipin/decode" [("digipin", VString "39J-438-TJC7")])
  = (["validateJsonContentType"; "cors"; "express.json"; "morgan";
      "digipinRoutes"],
     Sent (run (specCore digipin)
               (getDecode (sampleGet "/decode"
                                     [("digipin", VString "39J-438-TJC7")])))).
Proof.
  assert (Hr : route (mkRequest "GET" "/decode" [] []
                                [("digipin", VString "39J-438-TJC7")])
               = Some (getDecode (sampleGet "/decode"
                                   [("digipin", VString "39J-438-TJC7")])))
    by reflexivity.
  split; [exact Hr |].
  exact (@dispatch_to_route passThrough passThrough passThrough passThrough
           (specCore digipin) "GET" "/decode" [] []
           [("digipin", VString "39J-438-TJC7")] _
           (fun r => eq_refl) (fun r => eq_refl) (fun r => eq_refl)
           Hr eq_refl).
Defined.

End AdapterExtras.
